(** * poly-sniper: the oracle comparator and the redemption invoker

    A shallow embedding of [scripts/pyth_compare.py] and
    [scripts/redeem.py], and the properties of the two control flows.

    - [Py]: the fragment of Python's numeric tower the comparator uses
      (unbounded [int], binary64 [float], their mixed arithmetic and
      comparison) and its exceptions.
    - [PythCompare]: [pp], the per-sample loop and the summary.
    - [Redeem]: [main] of the redemption invoker against an explicit
      record of what the SDK answers. *)

From Stdlib Require Import ZArith QArith Qpower Lia List.
From Stdlib Require Import Floats.SpecFloat.
From stdpp Require Import base option list strings pretty gmap.

Local Open Scope Z_scope.

(* ===================================================================== *)
(** * Python values and effects *)
(* ===================================================================== *)

Module Py.

(** ** Exceptions

    The instances of [Exception] the two scripts can meet: those the
    interpreter raises on the modelled operations, and [LibraryError]
    for whatever a library or a remote call raises, with its [str()].
    What is not an [Exception] (a keyboard interrupt) is outside the
    model. *)
Inductive exn :=
| KeyError (key : string)
| TypeError
| ValueError
| ZeroDivisionError
| OverflowError
| LibraryError (msg : string).

(** A computation that returns or raises. *)
Inductive result (A : Type) :=
| Ok (a : A)
| Raise (e : exn).
Arguments Ok {A} a.
Arguments Raise {A} e.

#[global] Instance result_ret : MRet result := fun _ a => Ok a.
#[global] Instance result_bind : MBind result := fun _ _ f r =>
  match r with Ok a => f a | Raise e => Raise e end.

(** ** Numbers: [int] and [float] *)

Abbreviation prec := 53.
Abbreviation emax := 1024.

Inductive pynum :=
| PInt (z : Z)
| PFloat (f : spec_float).

Definition is_finite (f : spec_float) : bool :=
  match f with S754_zero _ | S754_finite _ _ _ => true | _ => false end.

Definition is_zero (f : spec_float) : bool :=
  match f with S754_zero _ => true | _ => false end.

(** [float(z)]: the nearest double, ties to even; [OverflowError] past
    the largest finite double. *)
Definition int_to_float (z : Z) : result spec_float :=
  let f := binary_normalize prec emax z 0 false in
  if is_finite f then Ok f else Raise OverflowError.

Definition to_float (n : pynum) : result spec_float :=
  match n with
  | PInt z => int_to_float z
  | PFloat f => Ok f
  end.

(** [a + b], [a - b], [a * b]: exact on two ints, otherwise both
    operands become floats and the IEEE operation is applied (an
    infinite or NaN result is returned, not raised). *)
Definition py_add (a b : pynum) : result pynum :=
  match a, b with
  | PInt x, PInt y => Ok (PInt (x + y))
  | _, _ => fa ← to_float a; fb ← to_float b; Ok (PFloat (SFadd prec emax fa fb))
  end.

Definition py_sub (a b : pynum) : result pynum :=
  match a, b with
  | PInt x, PInt y => Ok (PInt (x - y))
  | _, _ => fa ← to_float a; fb ← to_float b; Ok (PFloat (SFsub prec emax fa fb))
  end.

Definition py_mul (a b : pynum) : result pynum :=
  match a, b with
  | PInt x, PInt y => Ok (PInt (x * y))
  | _, _ => fa ← to_float a; fb ← to_float b; Ok (PFloat (SFmul prec emax fa fb))
  end.

(** The double nearest to the rational [x / y], for [y > 0]: the
    quotient of the two integers taken as exact significands. *)
Definition nearest_quotient (x : Z) (y : positive) : spec_float :=
  match x with
  | Z0 => S754_zero false
  | Zpos p => SFdiv prec emax (S754_finite false p 0) (S754_finite false y 0)
  | Zneg p => SFdiv prec emax (S754_finite true p 0) (S754_finite false y 0)
  end.

(** [a / b] (true division). Two ints give the correctly rounded
    quotient, [OverflowError] when it is out of range. *)
Definition py_truediv (a b : pynum) : result pynum :=
  match a, b with
  | PInt x, PInt y =>
      match y with
      | Z0 => Raise ZeroDivisionError
      | Zpos q =>
          let f := nearest_quotient x q in
          if is_finite f then Ok (PFloat f) else Raise OverflowError
      | Zneg q =>
          let f := nearest_quotient (- x) q in
          let f := if (x =? 0) then S754_zero true else f in
          if is_finite f then Ok (PFloat f) else Raise OverflowError
      end
  | _, _ =>
      fa ← to_float a; fb ← to_float b;
      if is_zero fb then Raise ZeroDivisionError
      else Ok (PFloat (SFdiv prec emax fa fb))
  end.

(** [base ** e] for two ints. A negative exponent leaves the integers:
    both operands are converted and C's [pow] is called; for base 10
    the result is modelled as the double nearest to [10^e] (zero once
    [10^e] is below half the least subnormal). *)
Definition py_pow10 (e : Z) : result pynum :=
  if 0 <=? e then Ok (PInt (10 ^ e))
  else
    _ ← int_to_float e;
    Ok (PFloat (nearest_quotient 1 (Z.to_pos (10 ^ (- e))))).

(** The comparison of an int with a finite double is exact. *)
Definition float_vs_int (f : spec_float) (z : Z) : option comparison :=
  match f with
  | S754_nan => None
  | S754_infinity s => Some (if s then Lt else Gt)
  | S754_zero _ => Some (0 ?= z)
  | S754_finite s m e =>
      let v := if s then Zneg m else Zpos m in
      Some (if 0 <=? e then (v * 2 ^ e ?= z) else (v ?= z * 2 ^ (- e)))
  end.

Definition py_compare (a b : pynum) : option comparison :=
  match a, b with
  | PInt x, PInt y => Some (x ?= y)
  | PFloat f, PFloat g => SFcompare f g
  | PFloat f, PInt y => float_vs_int f y
  | PInt x, PFloat g => CompOpp <$> float_vs_int g x
  end.

(** [a > b]. *)
Definition py_gt (a b : pynum) : bool :=
  match py_compare a b with Some Gt => true | _ => false end.

(** The rational a Python number denotes; [None] for an infinity or a
    NaN. *)
Definition pynum_value (n : pynum) : option Q :=
  match n with
  | PInt z => Some (inject_Z z)
  | PFloat (S754_zero _) => Some 0%Q
  | PFloat (S754_finite s m e) =>
      Some (inject_Z (if s then Zneg m else Zpos m) * (2 # 1) ^ e)%Q
  | PFloat _ => None
  end.

End Py.

(* ===================================================================== *)
(** * scripts/pyth_compare.py *)
(* ===================================================================== *)

Module PythCompare.
Import Py.

(** ** Data *)

(** A field of a sample as [json.load] delivers it: a number, a
    string, [true] or [false], [null]. An array or an object raises
    [TypeError] wherever [null] does in this script and compares
    unequal to a str like it; they are not told apart from it. *)
Inductive jval :=
| JNum (n : pynum)
| JStr (s : string)
| JBool (b : bool)
| JNull.

(** [s[k]] on a sample (a dict). *)
Definition getitem (s : gmap string jval) (k : string) : result jval :=
  match s !! k with
  | Some v => Ok v
  | None => Raise (KeyError k)
  end.

(** An arithmetic operand: [True] and [False] are the ints 1 and 0, a
    str or None operand is a [TypeError]. *)
Definition as_num (v : jval) : result pynum :=
  match v with
  | JNum n => Ok n
  | JBool b => Ok (PInt (Z.b2z b))
  | _ => Raise TypeError
  end.

(** [format(n, '.Nf')] of a number: an int is converted to a float
    first. The number that is rendered is returned; the digits are not
    modelled. *)
Definition format_num (n : pynum) : result pynum :=
  _ ← to_float n; Ok n.

(** [format(v, '.Nf')] of a field. *)
Definition format_f (v : jval) : result pynum :=
  match v with
  | JNum n => format_num n
  | JBool b => format_num (PInt (Z.b2z b))
  | JStr _ => Raise ValueError
  | JNull => Raise TypeError
  end.

(** [pd == s['bd']] with [pd] a str. *)
Definition str_eq (pd : string) (v : jval) : bool :=
  match v with
  | JStr b => bool_decide (pd = b)
  | _ => false
  end.

(** The oracle's answer once decoded: [int(d['price']['price'])] and
    [d['price']['expo']] of [json.loads(r.read())['parsed'][0]]. *)
Record response := { r_price : Z; r_expo : Z }.

(** What is outside the script. [hermes ts] is the request for [ts],
    the read, the JSON decoding, the three subscripts and [int()]: it
    raises when any of them does, and is taken to answer one timestamp
    the same way each time. [utc_stamp] is [datetime.fromtimestamp(ts,
    tz=utc)] followed by [strftime]. *)
Record World := {
  load_samples : result (list (gmap string jval));
  hermes : jval -> result response;
  utc_stamp : pynum -> result string;
  open_report : result unit;
}.

(** One formatted line: the values its fields render. *)
Record line := {
  l_ok : bool;
  l_date : string;
  l_pyth_pct : pynum;
  l_pd : string;
  l_bin_pct : pynum;
  l_bd : jval;
  l_bf : pynum;
  l_gap : pynum;
}.

(** What is printed or written to the report. *)
Inductive event :=
| Line (l : line)
| Err (i : nat) (e : exn)
| Header
| Rate (t m : Z) (pct : pynum)
| Cumulative (m10 t10 : Z) (pct : pynum)
| Saved.

(** The script's globals, its standard output and the report file
    ([None] until it is opened for writing). *)
Record state := {
  m : Z;
  x : Z;
  results : list line;
  stdout : list event;
  report : option (list event);
}.

Definition init : state :=
  {| m := 0; x := 0; results := []; stdout := []; report := None |}.

(** ** Statements: state and exceptions *)

Definition M (A : Type) : Type := state -> result A * state.

#[global] Instance M_ret : MRet M := fun _ a st => (Ok a, st).
#[global] Instance M_bind : MBind M := fun _ _ f c st =>
  match c st with
  | (Ok a, st') => f a st'
  | (Raise e, st') => (Raise e, st')
  end.

Definition lift {A} (r : result A) : M A := fun st => (r, st).

Definition get : M state := fun st => (Ok st, st).

Definition incr_m : M unit := fun st =>
  (Ok tt, {| m := m st + 1; x := x st; results := results st;
             stdout := stdout st; report := report st |}).

Definition incr_x : M unit := fun st =>
  (Ok tt, {| m := m st; x := x st + 1; results := results st;
             stdout := stdout st; report := report st |}).

Definition print (e : event) : M unit := fun st =>
  (Ok tt, {| m := m st; x := x st; results := results st;
             stdout := stdout st ++ [e]; report := report st |}).

Definition results_append (l : line) : M unit := fun st =>
  (Ok tt, {| m := m st; x := x st; results := results st ++ [l];
             stdout := stdout st; report := report st |}).

Definition truncate_report : M unit := fun st =>
  (Ok tt, {| m := m st; x := x st; results := results st;
             stdout := stdout st; report := Some [] |}).

Definition write (e : event) : M unit := fun st =>
  (Ok tt, {| m := m st; x := x st; results := results st;
             stdout := stdout st; report := (.++ [e]) <$> report st |}).

(** [try: body / except Exception as e: handler]. *)
Definition try_except {A} (body : M A) (handler : exn -> M A) : M A :=
  fun st =>
    match body st with
    | (Raise e, st') => handler e st'
    | r => r
    end.

(** ** The script *)

(** Line 12: [int(d['price']['price']) * (10 ** d['price']['expo'])]. *)
Definition price_of (d : response) : result pynum :=
  p ← py_pow10 (r_expo d);
  py_mul (PInt (r_price d)) p.

(** [pp(ts)]. *)
Definition pp (w : World) (ts : jval) : result pynum :=
  d ← hermes w ts;
  price_of d.

(** ['UP' if pc > po else 'DN']. *)
Definition pd (po pc : pynum) : string :=
  if py_gt pc po then "UP" else "DN".

(** [(b - a) / a * 100]. *)
Definition pct_move (a b : pynum) : result pynum :=
  d ← py_sub b a;
  q ← py_truediv d a;
  py_mul q (PInt 100).

(** The f-string of lines 33-36, field by field. *)
Definition format_line (w : World) (s : gmap string jval)
    (ts : jval) (po pc : pynum) (ok : bool) : result line :=
  n ← as_num ts;
  dt ← utc_stamp w n;
  pyth ← pct_move po pc;
  pyth ← format_num pyth;
  bc ← getitem s "bc";
  bo ← getitem s "bo";
  nbc ← as_num bc;
  nbo ← as_num bo;
  d ← py_sub nbc nbo;
  bo' ← getitem s "bo";
  nbo' ← as_num bo';
  q ← py_truediv d nbo';
  bin ← py_mul q (PInt 100);
  bin ← format_num bin;
  bd ← getitem s "bd";
  bf ← getitem s "bf";
  fbf ← format_f bf;
  bo'' ← getitem s "bo";
  nbo'' ← as_num bo'';
  gap ← py_sub po nbo'';
  gap ← format_num gap;
  Ok {| l_ok := ok; l_date := dt; l_pyth_pct := pyth; l_pd := pd po pc;
        l_bin_pct := bin; l_bd := bd; l_bf := fbf; l_gap := gap |}.

(** The [try] suite of the loop body (lines 23-38). *)
Definition attempt (w : World) (s : gmap string jval) (ts : jval) : M unit :=
  po ← lift (pp w ts);
  n ← lift (as_num ts);
  ts' ← lift (py_add n (PInt 300));
  pc ← lift (pp w (JNum ts'));
  bd ← lift (getitem s "bd");
  let ok := str_eq (pd po pc) bd in
  (if ok then incr_m else incr_x);;
  l ← lift (format_line w s ts po pc ok);
  print (Line l);;
  results_append l.

(** One iteration (lines 21-40): the subscript [s['ts']] is outside
    the [try]. *)
Definition body (w : World) (i : nat) (s : gmap string jval) : M unit :=
  ts ← lift (getitem s "ts");
  try_except (attempt w s ts) (fun e => print (Err i e)).

(** [for i, s in enumerate(samples)], from index [i]. *)
Fixpoint loop (w : World) (i : nat) (samples : list (gmap string jval)) : M unit :=
  match samples with
  | [] => mret tt
  | s :: rest => body w i s;; loop w (S i) rest
  end.

(** [m / t * 100]. *)
Definition rate (m t : Z) : result pynum :=
  q ← py_truediv (PInt m) (PInt t);
  py_mul q (PInt 100).

(** Lines 42-53. *)
Definition summary (w : World) : M unit :=
  st ← get;
  let t := m st + x st in
  print Header;;
  r ← lift (rate (m st) t);
  print (Rate t (m st) r);;
  r10 ← lift (rate (m st + 10) (t + 10));
  print (Cumulative (m st + 10) (t + 10) r10);;
  lift (open_report w);;
  truncate_report;;
  foldr (fun l k => write (Line l);; k) (mret tt) (results st);;
  r' ← lift (rate (m st) t);
  write (Rate t (m st) r');;
  r10' ← lift (rate (m st + 10) (t + 10));
  write (Cumulative (m st + 10) (t + 10) r10');;
  print Saved.

(** The whole script. *)
Definition script (w : World) : M unit :=
  samples ← lift (load_samples w);
  loop w 0 samples;;
  summary w.

(** ** What the claims speak of *)

(** The price the oracle means: mantissa times ten to the exponent. *)
Definition exact_price (d : response) : Q :=
  (inject_Z (r_price d) * (10 # 1) ^ r_expo d)%Q.

(** [price_of] returns a number that denotes exactly that rational. *)
Definition exactly_priced (d : response) : Prop :=
  exists v q, price_of d = Ok v /\ pynum_value v = Some q /\
              (q == exact_price d)%Q.

(** Whether a sample gets as far as the comparison of line 28, and
    what the comparison gives: both prices are fetched and [bd] is
    there. *)
Definition verdict (w : World) (s : gmap string jval) (ts : jval) : result bool :=
  po ← pp w ts;
  n ← as_num ts;
  ts' ← py_add n (PInt 300);
  pc ← pp w (JNum ts');
  bd ← getitem s "bd";
  Ok (str_eq (pd po pc) bd).

Definition compared (w : World) (s : gmap string jval) : option bool :=
  match getitem s "ts" ≫= verdict w s with
  | Ok b => Some b
  | Raise _ => None
  end.



Definition is_Err (e : event) : Prop :=
  match e with Err _ _ => True | _ => False end.



(** ** Sample inputs *)

(** An oracle that knows two timestamps, 100 at 1000 and 101 at 1300,
    both with exponent 0. *)
Definition oracle_up : World := {|
  load_samples := Ok [];
  hermes := fun ts =>
    match ts with
    | JNum (PInt 1000) => Ok {| r_price := 100; r_expo := 0 |}
    | JNum (PInt 1300) => Ok {| r_price := 101; r_expo := 0 |}
    | _ => Raise (LibraryError "HTTP Error 404: Not Found")
    end;
  utc_stamp := fun _ => Ok "01/01 00:16";
  open_report := Ok tt;
|}.

(** A sample at 1000 recorded as UP, with every field ([bf] is 0.5). *)
Definition sample_up : gmap string jval :=
  <["ts" := JNum (PInt 1000)]> (<["bo" := JNum (PInt 100)]>
  (<["bc" := JNum (PInt 101)]> (<["bd" := JStr "UP"]>
  (<["bf" := JNum (PFloat (S754_finite false 4503599627370496 (-53)))]> ∅)))).

(** The same sample without its [bf] field. *)
Definition sample_no_bf : gmap string jval := delete "bf" sample_up.


(** ** More to speak of *)

(** The line an event prints for a processed sample, if it is one. *)
Definition line_of (ev : event) : option line :=
  match ev with
  | Line l => Some l
  | _ => None
  end.

(** An event the iteration for index [i] can leave. *)
Definition event_of_index (i : nat) (ev : event) : Prop :=
  match ev with
  | Line _ => True
  | Err j _ => j = i
  | _ => False
  end.

(** A number equal to zero: the int 0 or a float zero of either sign. *)
Definition is_zero_num (n : pynum) : bool :=
  match n with
  | PInt z => z =? 0
  | PFloat f => is_zero f
  end.

(** [l] is the line the script formats for the sample [s]: from its
    [ts], from the two prices fetched for it and from the comparison
    of their direction with its [bd]. *)
Definition line_of_sample (w : World) (s : gmap string jval) (l : line) : Prop :=
  exists ts n ts' po pc bd,
    s !! "ts" = Some ts /\
    pp w ts = Ok po /\
    as_num ts = Ok n /\
    py_add n (PInt 300) = Ok ts' /\
    pp w (JNum ts') = Ok pc /\
    s !! "bd" = Some bd /\
    format_line w s ts po pc (str_eq (pd po pc) bd) = Ok l.

(** An event the iteration for the sample [s] at index [i] can leave:
    the line of [s], or an [ERR] with the index [i]. *)
Definition event_of_sample (w : World) (i : nat) (s : gmap string jval)
    (ev : event) : Prop :=
  match ev with
  | Line l => line_of_sample w s l
  | Err j _ => j = i
  | _ => False
  end.

(** A sample with all that its line needs: [ts], [bc], [bo] and [bf]
    are numbers (or booleans, which count as 1 and 0), [bd] is there,
    the price fetched at [ts] and [bo] are not zero. *)
Definition complete_sample (w : World) (s : gmap string jval) : Prop :=
  exists ts po vbc vbo vbf nts nbc nbo nbf,
    s !! "ts" = Some ts /\ as_num ts = Ok nts /\
    pp w ts = Ok po /\ is_zero_num po = false /\
    s !! "bc" = Some vbc /\ as_num vbc = Ok nbc /\
    s !! "bo" = Some vbo /\ as_num vbo = Ok nbo /\ is_zero_num nbo = false /\
    s !! "bf" = Some vbf /\ as_num vbf = Ok nbf /\
    is_Some (s !! "bd").



(** A sample whose [bo] is [true] and whose [bf] is [false]. *)
Definition sample_bools : gmap string jval :=
  <["bo" := JBool true]> (<["bf" := JBool false]> sample_up).

(** [oracle_up] with a batch of two on disk. *)
Definition oracle_up_batch : World := {|
  load_samples := Ok [sample_up; sample_no_bf];
  hermes := hermes oracle_up;
  utc_stamp := utc_stamp oracle_up;
  open_report := Ok tt;
|}.

End PythCompare.

(* ===================================================================== *)
(** * scripts/redeem.py *)
(* ===================================================================== *)

Module Redeem.

(** ** Data *)

(** The exceptions [main] can see, all instances of [Exception]:
    a failed subscript, and whatever an import or an SDK call raises. *)
Inductive error :=
| KeyError (key : string)
| IndexError
| SdkError (msg : string).

(** [str(e)]. *)
Definition error_str (e : error) : string :=
  match e with
  | KeyError k => "'" +:+ k +:+ "'"
  | IndexError => "list index out of range"
  | SdkError msg => msg
  end.

(** What a call into the SDK does: it returns or it raises. *)
Inductive answer (A : Type) :=
| Returns (a : A)
| Raises (e : error).
Arguments Returns {A} a.
Arguments Raises {A} e.

(** A value of the mapping [redeem] returns, and [str()] of it. *)
Inductive pyval :=
| VStr (s : string)
| VInt (z : Z)
| VBool (b : bool)
| VNone.

Definition str (v : pyval) : string :=
  match v with
  | VStr s => s
  | VInt z => pretty z
  | VBool true => "True"
  | VBool false => "False"
  | VNone => "None"
  end.

(** The calls that leave the script, in the order they are made. *)
Inductive call :=
| Import_sdk
| ClobClient (host key : string) (chain_id signature_type : Z) (funder : string)
| Create_or_derive_api_creds
| Set_api_creds
| BuilderApiKeyCreds (key secret passphrase : string)
| BuilderConfig
| RelayClient (chain_id : Z) (key : string)
| PolyWeb3Service
| Is_condition_resolved (condition_id : string)
| Get_redeemable_index_and_balance (condition_id : string)
| Redeem_call (condition_id : string).

(** What the five imports and the SDK objects answer. The objects
    themselves are opaque to the script and carried as [unit].
    [format_exc] is [traceback.format_exc()] inside the handler of the
    exception given. *)
Record World := {
  import_sdk : answer unit;
  clob_client : string -> string -> answer unit;
  create_or_derive_api_creds : answer unit;
  set_api_creds : answer unit;
  builder_api_key_creds : string -> string -> string -> answer unit;
  builder_config : answer unit;
  relay_client : string -> answer unit;
  poly_web3_service : answer unit;
  is_condition_resolved : string -> answer bool;
  get_redeemable_index_and_balance : string -> answer (list (Z * Z));
  redeem : string -> answer (gmap string pyval);
  format_exc : error -> string;
}.

(** A dict of str to str handed to [json.dumps], in insertion order. *)
Definition json : Type := list (string * string).

(** What the process has written to standard output and which calls
    it has made. *)
Record state := {
  stdout : list json;
  calls : list call;
}.

Definition init : state := {| stdout := []; calls := [] |}.

(** ** Statements: state, exceptions and [sys.exit]

    [sys.exit(c)] raises [SystemExit], which is not an [Exception]: it
    is a third outcome that no [except Exception] clause handles. *)
Inductive outcome (A : Type) :=
| Ok (a : A)
| Raise (e : error)
| Exit (code : Z).
Arguments Ok {A} a.
Arguments Raise {A} e.
Arguments Exit {A} code.

Definition M (A : Type) : Type := state -> outcome A * state.

#[global] Instance M_ret : MRet M := fun _ a st => (Ok a, st).
#[global] Instance M_bind : MBind M := fun _ _ f c st =>
  match c st with
  | (Ok a, st') => f a st'
  | (Raise e, st') => (Raise e, st')
  | (Exit c, st') => (Exit c, st')
  end.

Definition raise {A} (e : error) : M A := fun st => (Raise e, st).

Definition sys_exit {A} (code : Z) : M A := fun st => (Exit code, st).

(** [print(json.dumps(result))]. *)
Definition print (result : json) : M unit := fun st =>
  (Ok tt, {| stdout := stdout st ++ [result]; calls := calls st |}).

(** A call that leaves the script: it is recorded, then answered. *)
Definition invoke {A} (c : call) (a : answer A) : M A := fun st =>
  (match a with Returns v => Ok v | Raises e => Raise e end,
   {| stdout := stdout st; calls := calls st ++ [c] |}).

(** [try: body / except Exception as e: handler]. *)
Definition try_except {A} (body : M A) (handler : error -> M A) : M A :=
  fun st =>
    match body st with
    | (Raise e, st') => handler e st'
    | r => r
    end.

(** [os.environ[k]]. *)
Definition environ (env : gmap string string) (k : string) : M string :=
  match env !! k with
  | Some v => mret v
  | None => raise (KeyError k)
  end.

(** Truth value of [os.environ.get(v)]: unset and empty are false. *)
Definition environ_get_truthy (env : gmap string string) (v : string) : bool :=
  match env !! v with
  | Some s => negb (bool_decide (s = ""))
  | None => false
  end.

(** ** The script *)

Definition required_vars : list string :=
  ["POLY_PRIVATE_KEY"; "POLY_API_KEY"; "POLY_API_SECRET"; "POLY_PASSPHRASE";
   "POLY_PROXY_ADDRESS"; "BUILDER_API_KEY"; "BUILDER_SECRET"; "BUILDER_PASSPHRASE"].

Definition host : string := "https://clob.polymarket.com".
Definition chain_id : Z := 137.

(** [redeem_result.get(k, "")], then [str()]. *)
Definition get_str (redeem_result : gmap string pyval) (k : string) : string :=
  str (default (VStr "") (redeem_result !! k)).

(** Lines 53-87: the imports and the construction of the service. *)
Definition setup (env : gmap string string) (w : World) : M unit :=
  invoke Import_sdk (import_sdk w);;
  key ← environ env "POLY_PRIVATE_KEY";
  funder ← environ env "POLY_PROXY_ADDRESS";
  invoke (ClobClient host key chain_id 1 funder) (clob_client w key funder);;
  invoke Create_or_derive_api_creds (create_or_derive_api_creds w);;
  invoke Set_api_creds (set_api_creds w);;
  key' ← environ env "POLY_PRIVATE_KEY";
  bkey ← environ env "BUILDER_API_KEY";
  bsecret ← environ env "BUILDER_SECRET";
  bpass ← environ env "BUILDER_PASSPHRASE";
  invoke (BuilderApiKeyCreds bkey bsecret bpass) (builder_api_key_creds w bkey bsecret bpass);;
  invoke BuilderConfig (builder_config w);;
  invoke (RelayClient chain_id key') (relay_client w key');;
  invoke PolyWeb3Service (poly_web3_service w).

(** The objects [main] prints. *)
Definition usage_error : json :=
  [("status", "ERROR");
   ("message", "Usage: redeem.py <condition_id> [--neg-risk]")].

Definition config_error (missing : list string) : json :=
  [("status", "ERROR");
   ("message", "Missing env vars: " +:+ String.concat ", " missing)].

Definition resolution_error (e : error) : json :=
  [("status", "ERROR");
   ("message", "Failed to check resolution: " +:+ error_str e)].

Definition not_resolved : json :=
  [("status", "NOT_RESOLVED"); ("message", "Condition not yet resolved")].

Definition no_balance : json :=
  [("status", "NO_BALANCE"); ("message", "No redeemable balance")].

Definition success (redeem_result : gmap string pyval) : json :=
  [("status", "SUCCESS");
   ("tx_id", get_str redeem_result "transactionID");
   ("tx_hash", get_str redeem_result "transactionHash");
   ("state", get_str redeem_result "state");
   ("message", "Redeem executed successfully")].

Definition unexpected_error (w : World) (e : error) : json :=
  [("status", "ERROR");
   ("message", error_str e);
   ("traceback", format_exc w e)].

(** Lines 89-123: the three steps against the service. *)
Definition settle (condition_id : string) (w : World) : M unit :=
  is_resolved ←
    try_except
      (invoke (Is_condition_resolved condition_id) (is_condition_resolved w condition_id))
      (fun e => print (resolution_error e);; sys_exit 0);
  (if negb is_resolved then print not_resolved;; sys_exit 0 else mret tt);;
  try_except
    (redeemable ←
       invoke (Get_redeemable_index_and_balance condition_id)
              (get_redeemable_index_and_balance w condition_id);
     if bool_decide (redeemable = []) || forallb (fun ib => ib.2 =? 0) redeemable then
       print no_balance;; sys_exit 0
     else mret tt)
    (fun e => mret tt);;
  redeem_result ← invoke (Redeem_call condition_id) (redeem w condition_id);
  print (success redeem_result).

(** Line 46: the required names that are unset or empty. *)
Definition missing_vars (env : gmap string string) : list string :=
  filter (fun v => environ_get_truthy env v = false) required_vars.

(** [main()], with [sys.argv] and [os.environ] as arguments. *)
Definition main (argv : list string) (env : gmap string string) (w : World) : M unit :=
  if (length argv <? 2)%nat then
    print usage_error;; sys_exit 1
  else
    condition_id ← from_option mret (raise IndexError) (argv !! 1%nat);
    let neg_risk := bool_decide ("--neg-risk" ∈ argv) in
    let missing := missing_vars env in
    if negb (bool_decide (missing = [])) then
      print (config_error missing);; sys_exit 1
    else
      try_except
        (setup env w;; settle condition_id w)
        (fun e => print (unexpected_error w e);; sys_exit 1).

(** The process: what it printed, the calls it made, its exit status
    (0 when [main] returns, the argument of [sys.exit], 1 for an
    exception nobody caught). *)
Definition run (argv : list string) (env : gmap string string) (w : World)
    : outcome unit * state :=
  main argv env w init.

Definition exit_code (r : outcome unit * state) : Z :=
  match r.1 with
  | Ok _ => 0
  | Exit c => c
  | Raise _ => 1
  end.

Definition output (r : outcome unit * state) : list json := stdout r.2.

Definition trace (r : outcome unit * state) : list call := calls r.2.

(** ** What the claims speak of *)

(** The exception a call was answered with, if it was. *)
Definition raised {A} (a : answer A) : option error :=
  match a with
  | Returns _ => None
  | Raises e => Some e
  end.

Definition raised_by (w : World) (c : call) : option error :=
  match c with
  | Import_sdk => raised (import_sdk w)
  | ClobClient _ key _ _ funder => raised (clob_client w key funder)
  | Create_or_derive_api_creds => raised (create_or_derive_api_creds w)
  | Set_api_creds => raised (set_api_creds w)
  | BuilderApiKeyCreds k s p => raised (builder_api_key_creds w k s p)
  | BuilderConfig => raised (builder_config w)
  | RelayClient _ key => raised (relay_client w key)
  | PolyWeb3Service => raised (poly_web3_service w)
  | Is_condition_resolved c => raised (is_condition_resolved w c)
  | Get_redeemable_index_and_balance c => raised (get_redeemable_index_and_balance w c)
  | Redeem_call c => raised (redeem w c)
  end.

(** A name stands in a message. *)
Definition occurs_in (v msg : string) : Prop :=
  exists pre post, msg = pre +:+ v +:+ post.

(** The configuration row of the outcome table, read without the
    usage row before it. *)
Definition reports_missing (argv : list string) (env : gmap string string)
    (w : World) : Prop :=
  output (run argv env w) = [config_error (missing_vars env)] /\
  exit_code (run argv env w) = 1 /\
  trace (run argv env w) = [].

(** The two error rows of the outcome table, read as covering every
    call made inside the [try] block. *)
Definition every_raise_reported (argv : list string) (env : gmap string string)
    (w : World) : Prop :=
  forall c e,
    c ∈ trace (run argv env w) -> raised_by w c = Some e ->
    match c with
    | Is_condition_resolved _ =>
        output (run argv env w) = [resolution_error e] /\
        exit_code (run argv env w) = 0
    | _ =>
        output (run argv env w) = [unexpected_error w e] /\
        exit_code (run argv env w) = 1
    end.

(** ** Sample inputs *)

Definition env_full : gmap string string :=
  list_to_map ((fun v => (v, "secret")) <$> required_vars).

(** An SDK that works, a resolved condition with a balance, and a
    relayer that answers with an id and a state but no hash. *)
Definition sdk_ok : World := {|
  import_sdk := Returns tt;
  clob_client := fun _ _ => Returns tt;
  create_or_derive_api_creds := Returns tt;
  set_api_creds := Returns tt;
  builder_api_key_creds := fun _ _ _ => Returns tt;
  builder_config := Returns tt;
  relay_client := fun _ => Returns tt;
  poly_web3_service := Returns tt;
  is_condition_resolved := fun _ => Returns true;
  get_redeemable_index_and_balance := fun _ => Returns [(0, 0); (1, 2500000)];
  redeem := fun _ =>
    Returns (<["transactionID" := VStr "0193"]> (<["state" := VStr "STATE_NEW"]> ∅));
  format_exc := fun e => "Traceback (most recent call last): " +:+ error_str e;
|}.

(** The same, but the balance query fails. *)
Definition sdk_balance_down : World := {|
  import_sdk := Returns tt;
  clob_client := fun _ _ => Returns tt;
  create_or_derive_api_creds := Returns tt;
  set_api_creds := Returns tt;
  builder_api_key_creds := fun _ _ _ => Returns tt;
  builder_config := Returns tt;
  relay_client := fun _ => Returns tt;
  poly_web3_service := Returns tt;
  is_condition_resolved := fun _ => Returns true;
  get_redeemable_index_and_balance := fun _ => Raises (SdkError "rpc unavailable");
  redeem := fun _ =>
    Returns (<["transactionID" := VStr "0193"]> (<["state" := VStr "STATE_NEW"]> ∅));
  format_exc := fun e => "Traceback (most recent call last): " +:+ error_str e;
|}.

(** The same as [sdk_ok], but every balance is zero. *)
Definition sdk_all_zero : World := {|
  import_sdk := Returns tt;
  clob_client := fun _ _ => Returns tt;
  create_or_derive_api_creds := Returns tt;
  set_api_creds := Returns tt;
  builder_api_key_creds := fun _ _ _ => Returns tt;
  builder_config := Returns tt;
  relay_client := fun _ => Returns tt;
  poly_web3_service := Returns tt;
  is_condition_resolved := fun _ => Returns true;
  get_redeemable_index_and_balance := fun _ => Returns [(0, 0); (1, 0)];
  redeem := fun _ => Raises (SdkError "nothing to redeem");
  format_exc := fun e => "Traceback (most recent call last): " +:+ error_str e;
|}.

(** The relayer refuses. *)
Definition sdk_redeem_fails : World := {|
  import_sdk := Returns tt;
  clob_client := fun _ _ => Returns tt;
  create_or_derive_api_creds := Returns tt;
  set_api_creds := Returns tt;
  builder_api_key_creds := fun _ _ _ => Returns tt;
  builder_config := Returns tt;
  relay_client := fun _ => Returns tt;
  poly_web3_service := Returns tt;
  is_condition_resolved := fun _ => Returns true;
  get_redeemable_index_and_balance := fun _ => Returns [(0, 7)];
  redeem := fun _ => Raises (SdkError "relayer: 429");
  format_exc := fun e => "Traceback (most recent call last): " +:+ error_str e;
|}.

(** ** More to speak of *)

(** [j.get(k)] on a printed object. *)
Fixpoint field (k : string) (j : json) : option string :=
  match j with
  | [] => None
  | (k', v) :: rest => if bool_decide (k' = k) then Some v else field k rest
  end.

(** The calls of a run that nothing stops, in order. An unset variable
    reads as the empty string here; [main] never gets that far. *)
Definition plan (env : gmap string string) (condition_id : string) : list call :=
  let key := default "" (env !! "POLY_PRIVATE_KEY") in
  [Import_sdk;
   ClobClient host key chain_id 1 (default "" (env !! "POLY_PROXY_ADDRESS"));
   Create_or_derive_api_creds;
   Set_api_creds;
   BuilderApiKeyCreds (default "" (env !! "BUILDER_API_KEY"))
                      (default "" (env !! "BUILDER_SECRET"))
                      (default "" (env !! "BUILDER_PASSPHRASE"));
   BuilderConfig;
   RelayClient chain_id key;
   PolyWeb3Service;
   Is_condition_resolved condition_id;
   Get_redeemable_index_and_balance condition_id;
   Redeem_call condition_id].

(** The required names whose values [main] never reads. *)
Definition unread_vars : list string :=
  ["POLY_API_KEY"; "POLY_API_SECRET"; "POLY_PASSPHRASE"].

(** The condition is not resolved yet. *)
Definition sdk_unresolved : World := {|
  import_sdk := Returns tt;
  clob_client := fun _ _ => Returns tt;
  create_or_derive_api_creds := Returns tt;
  set_api_creds := Returns tt;
  builder_api_key_creds := fun _ _ _ => Returns tt;
  builder_config := Returns tt;
  relay_client := fun _ => Returns tt;
  poly_web3_service := Returns tt;
  is_condition_resolved := fun _ => Returns false;
  get_redeemable_index_and_balance := fun _ => Returns [(0, 7)];
  redeem := fun _ => Raises (SdkError "not resolved");
  format_exc := fun e => "Traceback (most recent call last): " +:+ error_str e;
|}.

End Redeem.

(* ===================================================================== *)
(** * Properties of the oracle comparator *)
(* ===================================================================== *)

Module PythCompareProofs.
Import Py PythCompare.

(** ** Price extraction *)

Lemma price_of_nonneg (d : response) :
  0 <= r_expo d -> price_of d = Ok (PInt (r_price d * 10 ^ r_expo d)).
Proof.
  intros H. unfold price_of, py_pow10.
  rewrite (proj2 (Z.leb_le 0 (r_expo d)) H). reflexivity.
Qed.

Lemma price_of_neg (d : response) :
  r_expo d < 0 ->
  price_of d =
    (_ ← int_to_float (r_expo d);
     fm ← int_to_float (r_price d);
     Ok (PFloat (SFmul prec emax fm
                   (nearest_quotient 1 (Z.to_pos (10 ^ (- r_expo d))))))).
Proof.
  intros H. unfold price_of, py_pow10.
  rewrite (proj2 (Z.leb_gt 0 (r_expo d)) H).
  destruct (int_to_float (r_expo d)); reflexivity.
Qed.

Lemma exact_price_nonneg (d : response) :
  0 <= r_expo d ->
  (inject_Z (r_price d * 10 ^ r_expo d) == exact_price d)%Q.
Proof.
  intros H. unfold exact_price.
  rewrite inject_Z_mult, (Zpower_Qpower 10 (r_expo d) H). reflexivity.
Qed.

(** No double is one tenth, however [pow] rounds: a finite double is
    an integer times a power of two, and five divides no power of
    two. *)
Lemma five_divides_no_power_of_two (n : Z) : 0 <= n -> ~ (5 | 2 ^ n).
Proof.
  intros Hn. pattern n. apply natlike_ind; [| |exact Hn].
  - intros [k Hk]. lia.
  - intros k Hk IH Hdiv. apply IH.
    rewrite Z.pow_succ_r in Hdiv by exact Hk.
    rewrite Z.mul_comm in Hdiv.
    apply Z.gauss with (m := 2); [rewrite Z.mul_comm; exact Hdiv | reflexivity].
Qed.

Lemma no_double_is_a_tenth (f : spec_float) (q : Q) :
  pynum_value (PFloat f) = Some q -> ~ (q == 1 # 10)%Q.
Proof.
  destruct f as [s|s| |s m e]; simpl; intros Hq; try discriminate;
    injection Hq as <-; [intros H; discriminate H|].
  set (v := if s then Z.neg m else Z.pos m).
  destruct (Z.le_gt_cases 0 e) as [He|He].
  - rewrite <- (Zpower_Qpower 2 e He), <- inject_Z_mult.
    unfold Qeq. simpl. intros H. lia.
  - replace e with (- (- e)) by lia.
    rewrite Qpower_opp, <- (Zpower_Qpower 2 (- e)) by lia.
    assert (0 < 2 ^ (- e)) as Hpos by (apply Z.pow_pos_nonneg; lia).
    destruct (2 ^ (- e)) as [|p|p] eqn:Hp; try lia.
    unfold Qeq. simpl. intros H.
    apply (five_divides_no_power_of_two (- e)); [lia|].
    rewrite Hp. exists (2 * v). lia.
Qed.

(** C2 fails as stated: for mantissa 1 and exponent -1 the price is
    the double nearest to one tenth, 7205759403792794 / 2^56, and no
    double is one tenth. *)
Lemma tenth_is_rounded :
  price_of {| r_price := 1; r_expo := -1 |} =
    Ok (PFloat (S754_finite false 7205759403792794 (-56))) /\
  ~ exactly_priced {| r_price := 1; r_expo := -1 |}.
Proof.
  split; [vm_compute; reflexivity|].
  intros (v & q & Hv & Hq & He).
  vm_compute in Hv. injection Hv as <-.
  apply (no_double_is_a_tenth _ q Hq).
  rewrite He. vm_compute. reflexivity.
Qed.

(** A mantissa is lost whole once ten to the exponent is below the
    least double. *)
Example price_of_tiny :
  price_of {| r_price := 123456789; r_expo := -400 |} = Ok (PFloat (S754_zero false)).
Proof. vm_compute. reflexivity. Qed.

(** C2, as amended. With an exponent that is not negative the price is
    the integer mantissa times ten to the exponent, exactly; with a
    negative exponent it is a binary64 number, the floating-point
    product of the mantissa converted to a float and of the float
    [10.0 ** exponent], or an [OverflowError] when a conversion is out
    of range. *)
Theorem price_exact_iff_integer_path (d : response) :
  (0 <= r_expo d ->
     price_of d = Ok (PInt (r_price d * 10 ^ r_expo d)) /\ exactly_priced d) /\
  (r_expo d < 0 ->
     price_of d = Raise OverflowError \/
     exists fm f10,
       int_to_float (r_price d) = Ok fm /\
       py_pow10 (r_expo d) = Ok (PFloat f10) /\
       price_of d = Ok (PFloat (SFmul prec emax fm f10))).
Proof.
  split; intros H.
  - split; [apply price_of_nonneg, H|].
    exists (PInt (r_price d * 10 ^ r_expo d)), (inject_Z (r_price d * 10 ^ r_expo d)).
    repeat split; [apply price_of_nonneg, H | apply exact_price_nonneg, H].
  - rewrite price_of_neg by exact H. unfold py_pow10.
    rewrite (proj2 (Z.leb_gt 0 (r_expo d)) H).
    unfold int_to_float.
    destruct (is_finite (binary_normalize prec emax (r_expo d) 0 false));
      simpl; [|left; reflexivity].
    destruct (is_finite (binary_normalize prec emax (r_price d) 0 false));
      simpl; [|left; reflexivity].
    right. eauto.
Qed.

Lemma price_exact_iff_integer_path_witness :
  exactly_priced {| r_price := 6543210; r_expo := 2 |} /\
  exists fm f10,
    int_to_float 6543210 = Ok fm /\
    py_pow10 (-8) = Ok (PFloat f10) /\
    price_of {| r_price := 6543210; r_expo := -8 |} =
      Ok (PFloat (SFmul prec emax fm f10)).
Proof.
  split.
  - apply (proj1 (price_exact_iff_integer_path {| r_price := 6543210; r_expo := 2 |})).
    simpl. lia.
  - destruct (proj2 (price_exact_iff_integer_path {| r_price := 6543210; r_expo := -8 |}))
      as [Hov|H]; [simpl; lia | vm_compute in Hov; discriminate | exact H].
Defined.

(** ** Direction *)

Lemma py_gt_int (a b : Z) : py_gt (PInt a) (PInt b) = true <-> b < a.
Proof.
  unfold py_gt; simpl. destruct (a ?= b) eqn:E.
  - apply Z.compare_eq in E. split; [discriminate | lia].
  - rewrite Z.compare_lt_iff in E. split; [discriminate | lia].
  - rewrite Z.compare_gt_iff in E. split; [lia | reflexivity].
Qed.

Example pd_100_101 : pd (PInt 100) (PInt 101) = "UP".
Proof. reflexivity. Qed.

Example pd_100_99 : pd (PInt 100) (PInt 99) = "DN".
Proof. reflexivity. Qed.

Example pd_100_100 : pd (PInt 100) (PInt 100) = "DN".
Proof. reflexivity. Qed.

(** ** The loop body *)

Ltac run_M :=
  unfold mbind, mret, M_bind, M_ret, lift, try_except, print, results_append,
    incr_m, incr_x in *; simpl in *.

(** What one iteration does to the counters and to standard output,
    read off [compared]. *)
Lemma body_effect (w : World) (i : nat) (s : gmap string jval) (st : state) :
  is_Some (s !! "ts") ->
  exists st' ev,
    body w i s st = (Ok tt, st') /\
    stdout st' = stdout st ++ [ev] /\
    report st' = report st /\
    match compared w s with
    | Some true => m st' = m st + 1 /\ x st' = x st
    | Some false => m st' = m st /\ x st' = x st + 1
    | None => m st' = m st /\ x st' = x st /\ is_Err ev
    end.
Proof.
  intros [ts Hts]. unfold body, compared, getitem. rewrite Hts. simpl.
  unfold attempt, verdict. run_M.
  destruct (pp w ts) as [po|e]; simpl; [|repeat esplit; simpl; eauto].
  destruct (as_num ts) as [n|e]; simpl; [|repeat esplit; simpl; eauto].
  destruct (py_add n (PInt 300)) as [ts'|e]; simpl; [|repeat esplit; simpl; eauto].
  destruct (pp w (JNum ts')) as [pc|e]; simpl; [|repeat esplit; simpl; eauto].
  destruct (getitem s "bd") as [bd|e]; simpl; [|repeat esplit; simpl; eauto].
  destruct (str_eq (pd po pc) bd); simpl;
    (destruct (format_line w s ts po pc _) as [l|e]; simpl; repeat esplit; simpl; eauto).
Qed.

Lemma body_no_ts (w : World) (i : nat) (s : gmap string jval) (st : state) :
  s !! "ts" = None -> body w i s st = (Raise (KeyError "ts"), st).
Proof. intros H. unfold body, getitem. rewrite H. reflexivity. Qed.

(** C1 fails as stated: the string for a price that did not rise is
    ["DN"], not ["DOWN"]; a tie and a fall both show it. *)
Lemma pd_never_DOWN :
  pd (PInt 100) (PInt 100) = "DN" /\
  pd (PInt 100) (PInt 100) <> "DOWN" /\
  pd (PInt 100) (PInt 99) <> "DOWN".
Proof. repeat split; vm_compute; congruence. Qed.

(** ** The loop *)


Lemma loop_cons (w : World) (i : nat) (s : gmap string jval)
    (rest : list (gmap string jval)) (st : state) :
  loop w i (s :: rest) st =
    match body w i s st with
    | (Ok _, st') => loop w (S i) rest st'
    | (Raise e, st') => (Raise e, st')
    end.
Proof. reflexivity. Qed.









(** C1, as amended. For a sample whose two price fetches succeed, with
    [po] at [ts] and [pc] at [ts + 300], the direction string is
    ["UP"] when [pc > po] and ["DN"] otherwise, a tie included; and it
    is this string whose equality with the sample's [bd] moves [m] or
    [x] in the iteration. *)
Theorem direction_is_UP_or_DN (w : World) (i : nat) (s : gmap string jval)
    (st : state) (ts : jval) (n ts' po pc : pynum) (bd : jval) :
  s !! "ts" = Some ts ->
  pp w ts = Ok po ->
  as_num ts = Ok n ->
  py_add n (PInt 300) = Ok ts' ->
  pp w (JNum ts') = Ok pc ->
  s !! "bd" = Some bd ->
  (py_gt pc po = true -> pd po pc = "UP") /\
  (py_gt pc po = false -> pd po pc = "DN") /\
  (py_compare pc po = Some Eq -> pd po pc = "DN") /\
  (str_eq (pd po pc) bd = true ->
     m (body w i s st).2 = m st + 1 /\ x (body w i s st).2 = x st) /\
  (str_eq (pd po pc) bd = false ->
     m (body w i s st).2 = m st /\ x (body w i s st).2 = x st + 1).
Proof.
  intros Hts Hpo Hn Hts' Hpc Hbd.
  assert (Hcmp : compared w s = Some (str_eq (pd po pc) bd)).
  { unfold compared, verdict, getitem. rewrite Hts. simpl.
    rewrite Hpo. simpl. rewrite Hn. simpl. rewrite Hts'. simpl.
    rewrite Hpc. simpl. rewrite Hbd. reflexivity. }
  destruct (body_effect w i s st (mk_is_Some _ _ Hts))
    as (st1 & ev & Hb & _ & _ & Heff).
  rewrite Hb, Hcmp in *. simpl.
  split; [intros H; unfold pd; rewrite H; reflexivity|].
  split; [intros H; unfold pd; rewrite H; reflexivity|].
  split; [intros H; unfold pd, py_gt; rewrite H; reflexivity|].
  split; intros H; rewrite H in Heff; exact Heff.
Qed.

Lemma direction_is_UP_or_DN_witness :
  pd (PInt 100) (PInt 101) = "UP" /\
  m (body oracle_up 0 sample_up init).2 = 1 /\
  x (body oracle_up 0 sample_up init).2 = 0.
Proof.
  destruct (direction_is_UP_or_DN oracle_up 0 sample_up init
              (JNum (PInt 1000)) (PInt 1000) (PInt 1300) (PInt 100) (PInt 101)
              (JStr "UP"))
    as (Hup & _ & _ & Hm & _); try (vm_compute; reflexivity).
  split; [apply Hup; reflexivity | apply Hm; reflexivity].
Defined.


(** ** The summary *)






(** ** More on the loop *)

(** What one iteration leaves behind: the line of the sample, appended
    to [results] too, or an [ERR] with the sample's index. *)
Lemma body_outcome (w : World) (i : nat) (s : gmap string jval) (st : state) :
  is_Some (s !! "ts") ->
  exists st',
    body w i s st = (Ok tt, st') /\
    report st' = report st /\
    m st <= m st' /\ x st <= x st' /\
    ((exists l, stdout st' = stdout st ++ [Line l] /\
                results st' = results st ++ [l] /\
                m st' + x st' = m st + x st + 1) \/
     (exists e, stdout st' = stdout st ++ [Err i e] /\
                results st' = results st)).
Proof.
  intros [ts Hts]. unfold body, getitem. rewrite Hts. simpl.
  unfold attempt. run_M.
  destruct (pp w ts) as [po|e]; simpl; [|eexists; repeat split; simpl; eauto; lia].
  destruct (as_num ts) as [n|e]; simpl; [|eexists; repeat split; simpl; eauto; lia].
  destruct (py_add n (PInt 300)) as [ts'|e]; simpl;
    [|eexists; repeat split; simpl; eauto; lia].
  destruct (pp w (JNum ts')) as [pc|e]; simpl;
    [|eexists; repeat split; simpl; eauto; lia].
  destruct (getitem s "bd") as [bd|e]; simpl;
    [|eexists; repeat split; simpl; eauto; lia].
  destruct (str_eq (pd po pc) bd); simpl;
    (destruct (format_line w s ts po pc _) as [l|e]; simpl;
     eexists; repeat split; simpl; try lia;
     [left; eexists; repeat split; simpl; lia | right; eauto]).
Qed.

Lemma loop_app (w : World) (l1 l2 : list (gmap string jval)) :
  forall (i : nat) (st : state),
  loop w i (l1 ++ l2) st =
    match loop w i l1 st with
    | (Ok _, st') => loop w (i + length l1) l2 st'
    | (Raise e, st') => (Raise e, st')
    end.
Proof.
  induction l1 as [|s l1 IH]; intros i st.
  - simpl. rewrite Nat.add_0_r. reflexivity.
  - simpl app. rewrite !loop_cons.
    destruct (body w i s st) as [[[]|e] st1]; [|reflexivity].
    rewrite IH. simpl length. rewrite Nat.add_succ_r. reflexivity.
Qed.

(** The loop over samples that all carry [ts], from any index and
    state: the events it adds, one per sample and in order, and what
    it appends to [results]. *)
Lemma loop_events (w : World) (samples : list (gmap string jval)) :
  Forall (fun s => is_Some (s !! "ts")) samples ->
  forall (i : nat) (st : state),
  exists st' evs,
    loop w i samples st = (Ok tt, st') /\
    stdout st' = stdout st ++ evs /\
    length evs = length samples /\
    (forall k ev, evs !! k = Some ev -> event_of_index (i + k) ev) /\
    results st' = results st ++ omap line_of evs /\
    m st <= m st' /\ x st <= x st' /\
    m st' + x st' - (m st + x st) >= Z.of_nat (length (omap line_of evs)) /\
    report st' = report st.
Proof.
  induction 1 as [|s rest Hs _ IH]; intros i st.
  - exists st, []. simpl. rewrite !app_nil_r.
    repeat split; try lia. intros k ev Hk. destruct k; discriminate Hk.
  - destruct (body_outcome w i s st Hs) as (st1 & Hb & Hrep & Hm & Hx & Hev).
    destruct (IH (S i) st1)
      as (st2 & evs & Hl & Hout & Hlen & Hidx & Hres & Hm' & Hx' & Hcnt & Hrep').
    rewrite loop_cons, Hb.
    destruct Hev as [(l & Ho & Hr & Ht)|(e & Ho & Hr)].
    + exists st2, (Line l :: evs).
      change (omap line_of (Line l :: evs)) with (l :: omap line_of evs).
      rewrite Hout, Ho, Hres, Hr, <- !app_assoc. simpl length. simpl app.
      repeat split; try lia; try congruence.
      intros [|k] ev Hk; simpl in Hk; [injection Hk as <-; exact I|].
      rewrite Nat.add_succ_r. apply (Hidx k ev Hk).
    + exists st2, (Err i e :: evs).
      change (omap line_of (Err i e :: evs)) with (omap line_of evs).
      rewrite Hout, Ho, Hres, Hr, <- !app_assoc. simpl length. simpl app.
      repeat split; try lia; try congruence.
      intros [|k] ev Hk; simpl in Hk; [injection Hk as <-; simpl; lia|].
      rewrite Nat.add_succ_r. apply (Hidx k ev Hk).
Qed.

(** X1. A sample without [ts] stops the batch: line 21 is outside the
    [try], so the [KeyError] leaves the loop and the script. The
    samples before it have been handled, the ones after it never are,
    and no summary is printed. *)
Theorem missing_ts_aborts_batch (w : World)
    (pre post : list (gmap string jval)) (s : gmap string jval) :
  load_samples w = Ok (pre ++ s :: post) ->
  Forall (fun s => is_Some (s !! "ts")) pre ->
  s !! "ts" = None ->
  exists st,
    loop w 0 pre init = (Ok tt, st) /\
    script w init = (Raise (KeyError "ts"), st) /\
    length (stdout st) = length pre /\
    report st = None.
Proof.
  intros Hload Hpre Hs.
  destruct (loop_events w pre Hpre 0%nat init)
    as (st & evs & Hl & Hout & Hlen & _ & _ & _ & _ & _ & Hrep).
  exists st. split; [exact Hl|]. simpl in Hout, Hrep.
  split; [|split; [rewrite Hout; exact Hlen | exact Hrep]].
  unfold script. run_M. rewrite Hload. simpl.
  rewrite loop_app, Hl, loop_cons, body_no_ts by exact Hs. reflexivity.
Qed.

Lemma missing_ts_aborts_batch_witness :
  exists st,
    loop oracle_up 0 [sample_up] init = (Ok tt, st) /\
    script {| load_samples := Ok [sample_up; ∅; sample_up];
              hermes := hermes oracle_up;
              utc_stamp := utc_stamp oracle_up;
              open_report := Ok tt |} init = (Raise (KeyError "ts"), st) /\
    length (stdout st) = 1%nat.
Proof.
  destruct (missing_ts_aborts_batch
              {| load_samples := Ok [sample_up; ∅; sample_up];
                 hermes := hermes oracle_up;
                 utc_stamp := utc_stamp oracle_up;
                 open_report := Ok tt |} [sample_up] [sample_up] ∅)
    as (st & Hl & Hs & Hn & _).
  - reflexivity.
  - repeat constructor. eexists. vm_compute. reflexivity.
  - reflexivity.
  - exists st. repeat split; assumption.
Defined.

(** What one iteration prints, whatever the state before: the line of
    its sample or an [ERR] with its index. *)
Lemma body_prints (w : World) (i : nat) (s : gmap string jval) (st : state) :
  is_Some (s !! "ts") ->
  exists ev,
    stdout (body w i s st).2 = stdout st ++ [ev] /\ event_of_sample w i s ev.
Proof.
  intros [ts Hts]. unfold body, getitem. rewrite Hts. simpl.
  unfold attempt. run_M.
  destruct (pp w ts) as [po|e] eqn:Hpo; simpl; [|exists (Err i e); split; reflexivity].
  destruct (as_num ts) as [n|e] eqn:Hn; simpl; [|exists (Err i e); split; reflexivity].
  destruct (py_add n (PInt 300)) as [ts'|e] eqn:Hts'; simpl;
    [|exists (Err i e); split; reflexivity].
  destruct (pp w (JNum ts')) as [pc|e] eqn:Hpc; simpl;
    [|exists (Err i e); split; reflexivity].
  destruct (getitem s "bd") as [bd|e] eqn:Hbd; simpl;
    [|exists (Err i e); split; reflexivity].
  assert (s !! "bd" = Some bd) as Hbd'
    by (unfold getitem in Hbd; destruct (s !! "bd"); congruence).
  destruct (str_eq (pd po pc) bd) eqn:Hok; simpl.
  - destruct (format_line w s ts po pc true) as [l|e] eqn:Hl; simpl.
    + exists (Line l). split; [reflexivity|]. simpl.
      exists ts, n, ts', po, pc, bd. rewrite Hok. repeat split; assumption.
    + exists (Err i e). split; reflexivity.
  - destruct (format_line w s ts po pc false) as [l|e] eqn:Hl; simpl.
    + exists (Line l). split; [reflexivity|]. simpl.
      exists ts, n, ts', po, pc, bd. rewrite Hok. repeat split; assumption.
    + exists (Err i e). split; reflexivity.
Qed.




Lemma loop_preserves (P : state -> Prop) (w : World) :
  (forall i s st, P st -> P (body w i s st).2) ->
  forall samples i st, P st -> P (loop w i samples st).2.
Proof.
  intros Hbody. induction samples as [|s rest IH]; intros i st HP; [exact HP|].
  rewrite loop_cons. pose proof (Hbody i s st HP) as HP1.
  destruct (body w i s st) as [[[]|e] st1]; simpl in *; [apply IH|]; exact HP1.
Qed.

(** [results] and the counters against standard output, however the
    loop ends. *)
Lemma results_invariant (w : World) (samples : list (gmap string jval)) :
  results (loop w 0 samples init).2 = omap line_of (stdout (loop w 0 samples init).2) /\
  Z.of_nat (length (results (loop w 0 samples init).2)) <=
    m (loop w 0 samples init).2 + x (loop w 0 samples init).2.
Proof.
  apply (loop_preserves
           (fun st => results st = omap line_of (stdout st) /\
                      Z.of_nat (length (results st)) <= m st + x st) w);
    [|split; [reflexivity | simpl; lia]].
  intros i s st [Hres Hlen].
  destruct (s !! "ts") as [ts|] eqn:Hts.
  - destruct (body_outcome w i s st (mk_is_Some _ _ Hts))
      as (st1 & Hb & _ & Hm & Hx & [(l & Ho & Hr & Ht)|(e & Ho & Hr)]);
      rewrite Hb; simpl; rewrite Ho, Hr, omap_app, <- Hres; simpl.
    + split; [reflexivity|]. rewrite length_app. simpl. lia.
    + split; [rewrite app_nil_r; reflexivity | lia].
  - rewrite body_no_ts by exact Hts. simpl. split; assumption.
Qed.

(** X3. [results] holds exactly the sample lines printed so far, in the
    order they were printed, and each of them belongs to a sample that
    was counted: there are at most [m + x] of them. This holds however
    the loop ends. *)
Theorem results_are_printed_lines (w : World)
    (samples : list (gmap string jval)) (r : result unit) (st : state) :
  loop w 0 samples init = (r, st) ->
  results st = omap line_of (stdout st) /\
  Z.of_nat (length (results st)) <= m st + x st.
Proof.
  intros H. pose proof (results_invariant w samples) as Hinv.
  rewrite H in Hinv. exact Hinv.
Qed.

Lemma results_are_printed_lines_witness :
  results (loop oracle_up 0 [sample_up; sample_no_bf] init).2 =
    omap line_of (stdout (loop oracle_up 0 [sample_up; sample_no_bf] init).2) /\
  Z.of_nat (length (results (loop oracle_up 0 [sample_up; sample_no_bf] init).2)) <=
    m (loop oracle_up 0 [sample_up; sample_no_bf] init).2 +
    x (loop oracle_up 0 [sample_up; sample_no_bf] init).2.
Proof.
  apply (results_are_printed_lines oracle_up [sample_up; sample_no_bf]
           (loop oracle_up 0 [sample_up; sample_no_bf] init).1).
  destruct (loop oracle_up 0 [sample_up; sample_no_bf] init). reflexivity.
Defined.

(** ** The report *)

Lemma write_lines (ls : list line) :
  forall st,
  foldr (fun l k => write (Line l);; k) (mret tt) ls st =
    (Ok tt, {| m := m st; x := x st; results := results st; stdout := stdout st;
               report := (.++ (Line <$> ls)) <$> report st |}).
Proof.
  induction ls as [|l ls IH]; intros [m0 x0 rs out rep]; simpl.
  - unfold mret, M_ret. simpl. destruct rep; simpl; rewrite ?app_nil_r; reflexivity.
  - unfold mbind, M_bind, write at 1. simpl. rewrite IH. simpl.
    destruct rep; simpl; [rewrite <- app_assoc|]; reflexivity.
Qed.

Lemma rate_ok_nonzero (a t : Z) (r : pynum) : rate a t = Ok r -> t <> 0.
Proof. intros H ->. unfold rate in H. simpl in H. discriminate H. Qed.

(** [summary], path by path. *)
Lemma summary_cases (w : World) (st : state) :
  let t := m st + x st in
  let out evs := {| m := m st; x := x st; results := results st;
                    stdout := stdout st ++ evs; report := report st |} in
  summary w st =
    match rate (m st) t with
    | Raise e => (Raise e, out [Header])
    | Ok r =>
        match rate (m st + 10) (t + 10) with
        | Raise e => (Raise e, out [Header; Rate t (m st) r])
        | Ok r10 =>
            let printed := [Header; Rate t (m st) r;
                            Cumulative (m st + 10) (t + 10) r10] in
            match open_report w with
            | Raise e => (Raise e, out printed)
            | Ok _ =>
                (Ok tt,
                 {| m := m st; x := x st; results := results st;
                    stdout := stdout st ++ printed ++ [Saved];
                    report := Some ((Line <$> results st) ++
                                    [Rate t (m st) r;
                                     Cumulative (m st + 10) (t + 10) r10]) |})
            end
        end
    end.
Proof.
  destruct st as [m0 x0 rs out0 rep]. simpl.
  unfold summary, get, truncate_report. run_M.
  destruct (rate m0 (m0 + x0)) as [r|e] eqn:Hr; simpl; [|reflexivity].
  destruct (rate (m0 + 10) (m0 + x0 + 10)) as [r10|e] eqn:Hr10; simpl;
    [|rewrite <- app_assoc; reflexivity].
  destruct (open_report w) as [[]|e]; simpl;
    [|rewrite <- !app_assoc; reflexivity].
  rewrite write_lines. simpl. unfold write. simpl.
  rewrite <- !app_assoc. reflexivity.
Qed.

Lemma script_cases (w : World) :
  script w init =
    match load_samples w with
    | Raise e => (Raise e, init)
    | Ok samples =>
        match loop w 0 samples init with
        | (Ok _, st) => summary w st
        | (Raise e, st) => (Raise e, st)
        end
    end.
Proof.
  unfold script. run_M. destruct (load_samples w); simpl; [|reflexivity].
  destruct (loop w 0 a init) as [[[]|e] st]; reflexivity.
Qed.

(** X4. When the script runs to its end, some sample was counted, the
    last four lines on standard output are the header, the two rates
    and the notice of line 53, and the report file holds the sample
    lines of standard output in their order, without the [ERR] lines,
    followed by the same two rates. *)
Theorem report_mirrors_output (w : World) (st' : state) :
  script w init = (Ok tt, st') ->
  exists samples st r r10,
    load_samples w = Ok samples /\
    loop w 0 samples init = (Ok tt, st) /\
    m st + x st <> 0 /\
    stdout st' =
      stdout st ++ [Header; Rate (m st + x st) (m st) r;
                    Cumulative (m st + 10) (m st + x st + 10) r10; Saved] /\
    report st' =
      Some ((Line <$> omap line_of (stdout st)) ++
            [Rate (m st + x st) (m st) r;
             Cumulative (m st + 10) (m st + x st + 10) r10]).
Proof.
  rewrite script_cases. intros H.
  destruct (load_samples w) as [samples|e]; [|discriminate H].
  pose proof (results_invariant w samples) as [Hres _].
  destruct (loop w 0 samples init) as [[[]|e] st] eqn:Hl; [|discriminate H].
  simpl in Hres. rewrite summary_cases in H.
  destruct (rate (m st) (m st + x st)) as [r|e] eqn:Hr; [|discriminate H].
  destruct (rate (m st + 10) (m st + x st + 10)) as [r10|e]; [|discriminate H].
  destruct (open_report w) as [[]|e]; [|discriminate H].
  injection H as <-. simpl.
  exists samples, st, r, r10. rewrite <- Hres.
  split; [reflexivity|]. split; [exact Hl|].
  split; [exact (rate_ok_nonzero _ _ _ Hr)|].
  split; reflexivity.
Qed.

Lemma report_mirrors_output_witness :
  exists samples st r r10,
    load_samples oracle_up_batch = Ok samples /\
    loop oracle_up_batch 0 samples init = (Ok tt, st) /\
    m st + x st <> 0 /\
    stdout (script oracle_up_batch init).2 =
      stdout st ++ [Header; Rate (m st + x st) (m st) r;
                    Cumulative (m st + 10) (m st + x st + 10) r10; Saved] /\
    report (script oracle_up_batch init).2 =
      Some ((Line <$> omap line_of (stdout st)) ++
            [Rate (m st + x st) (m st) r;
             Cumulative (m st + 10) (m st + x st + 10) r10]).
Proof.
  apply (report_mirrors_output oracle_up_batch (script oracle_up_batch init).2).
  vm_compute. reflexivity.
Defined.

(** X5. The report file is never left half written: whatever happens,
    it is either untouched or the script has run to its end. Every
    computation of the summary that can raise is made before the file
    is opened. *)
Theorem report_untouched_or_complete (w : World) :
  report (script w init).2 = None \/ (script w init).1 = Ok tt.
Proof.
  rewrite script_cases.
  destruct (load_samples w) as [samples|e]; [|left; reflexivity].
  assert (Hrep : report (loop w 0 samples init).2 = None).
  { apply (loop_preserves (fun st => report st = None) w); [|reflexivity].
    intros i s st Hr. destruct (s !! "ts") as [ts|] eqn:Hts.
    - destruct (body_outcome w i s st (mk_is_Some _ _ Hts)) as (st1 & Hb & Hr1 & _).
      rewrite Hb. simpl. congruence.
    - rewrite body_no_ts by exact Hts. exact Hr. }
  destruct (loop w 0 samples init) as [[[]|e] st]; [|left; exact Hrep].
  simpl in Hrep. rewrite summary_cases.
  destruct (rate (m st) (m st + x st)) as [r|e]; [|left; exact Hrep].
  destruct (rate (m st + 10) (m st + x st + 10)) as [r10|e]; [|left; exact Hrep].
  destruct (open_report w) as [[]|e]; [right; reflexivity | left; exact Hrep].
Qed.

(** ** Direction, again *)

(** X6. For two oracle answers whose exponents are not negative the
    direction is decided exactly: ["UP"] when and only when the later
    mantissa times its power of ten is greater than the earlier one,
    ["DN"] otherwise. *)
Theorem direction_exact_on_integer_prices (a b : response) :
  0 <= r_expo a -> 0 <= r_expo b ->
  exists po pc,
    price_of a = Ok po /\ price_of b = Ok pc /\
    (pd po pc = "UP" <->
       r_price a * 10 ^ r_expo a < r_price b * 10 ^ r_expo b) /\
    (pd po pc = "DN" <->
       r_price b * 10 ^ r_expo b <= r_price a * 10 ^ r_expo a).
Proof.
  intros Ha Hb.
  exists (PInt (r_price a * 10 ^ r_expo a)), (PInt (r_price b * 10 ^ r_expo b)).
  split; [apply price_of_nonneg, Ha|]. split; [apply price_of_nonneg, Hb|].
  unfold pd.
  destruct (py_gt (PInt (r_price b * 10 ^ r_expo b))
                  (PInt (r_price a * 10 ^ r_expo a))) eqn:E.
  - apply py_gt_int in E.
    split; [split; [intros _; exact E | reflexivity] | split; [discriminate | lia]].
  - assert (~ r_price a * 10 ^ r_expo a < r_price b * 10 ^ r_expo b) as Hn.
    { intros H. apply py_gt_int in H. congruence. }
    split; [split; [discriminate | intros H; contradiction]
           | split; [intros _; lia | reflexivity]].
Qed.

Lemma direction_exact_on_integer_prices_witness :
  exists po pc,
    price_of {| r_price := 2998; r_expo := 1 |} = Ok po /\
    price_of {| r_price := 30; r_expo := 3 |} = Ok pc /\
    pd po pc = "UP".
Proof.
  destruct (direction_exact_on_integer_prices
              {| r_price := 2998; r_expo := 1 |} {| r_price := 30; r_expo := 3 |})
    as (po & pc & Ha & Hb & Hup & _); [simpl; lia | simpl; lia |].
  exists po, pc. repeat split; try assumption. apply Hup. simpl. lia.
Defined.

Lemma SFcompare_refl (f : spec_float) : SFcompare f f <> Some Gt.
Proof.
  destruct f as [s|s| |s m e]; simpl; try destruct s; try discriminate.
  - rewrite Z.compare_refl, Pos.compare_cont_refl. discriminate.
  - rewrite Z.compare_refl, Pos.compare_cont_refl. discriminate.
Qed.

(** X7. A price is never above itself, be it an int, a float, an
    infinity or a NaN: when the oracle gives the same price at both
    timestamps the direction is ["DN"]. *)
Theorem unchanged_price_is_DN (v : pynum) : pd v v = "DN".
Proof.
  unfold pd, py_gt. destruct v as [z|f]; simpl.
  - rewrite Z.compare_refl. reflexivity.
  - pose proof (SFcompare_refl f) as H.
    destruct (SFcompare f f) as [[]|]; try reflexivity. congruence.
Qed.

(** ** What a line needs *)

Lemma truediv_ok_nonzero (d a q : pynum) :
  py_truediv d a = Ok q -> is_zero_num a = false.
Proof.
  unfold py_truediv, is_zero_num.
  destruct d as [x|fd], a as [y|fa]; simpl.
  - destruct y; [discriminate | reflexivity | reflexivity].
  - destruct (int_to_float x); simpl; [|discriminate].
    destruct (is_zero fa); [discriminate | reflexivity].
  - destruct y; [vm_compute; discriminate | reflexivity | reflexivity].
  - destruct (is_zero fa); [discriminate | reflexivity].
Qed.

Lemma getitem_ok (s : gmap string jval) (k : string) (v : jval) :
  getitem s k = Ok v -> s !! k = Some v.
Proof. unfold getitem. destruct (s !! k); intros H; congruence. Qed.

Lemma format_f_as_num (v : jval) (n : pynum) :
  format_f v = Ok n -> as_num v = Ok n.
Proof.
  destruct v as [k|k|b|]; simpl; try discriminate; unfold format_num.
  - destruct (to_float k); simpl; congruence.
  - destruct (to_float (PInt (Z.b2z b))); simpl; congruence.
Qed.

(** What the f-string of lines 33-36 needs in order to return. *)
Lemma format_line_needs (w : World) (s : gmap string jval)
    (ts : jval) (po pc : pynum) (ok : bool) (l : line) :
  format_line w s ts po pc ok = Ok l ->
  exists vbc vbo vbf nts nbc nbo nbf,
    as_num ts = Ok nts /\
    is_zero_num po = false /\
    s !! "bc" = Some vbc /\ as_num vbc = Ok nbc /\
    s !! "bo" = Some vbo /\ as_num vbo = Ok nbo /\ is_zero_num nbo = false /\
    s !! "bf" = Some vbf /\ as_num vbf = Ok nbf.
Proof.
  unfold format_line, pct_move. intros H.
  destruct (as_num ts) as [nts|] eqn:Hts; simpl in H; [|discriminate].
  destruct (utc_stamp w nts); simpl in H; [|discriminate].
  destruct (py_sub pc po); simpl in H; [|discriminate].
  destruct (py_truediv a0 po) eqn:Hdiv1; simpl in H; [|discriminate].
  destruct (py_mul a1 (PInt 100)); simpl in H; [|discriminate].
  destruct (format_num a2); simpl in H; [|discriminate].
  destruct (getitem s "bc") as [bc|] eqn:Hbc; simpl in H; [|discriminate].
  destruct (getitem s "bo") as [bo|] eqn:Hbo; simpl in H; [|discriminate].
  destruct (as_num bc) as [nbc|] eqn:Hnbc; simpl in H; [|discriminate].
  destruct (as_num bo) as [nbo|] eqn:Hnbo; simpl in H; [|discriminate].
  destruct (py_sub nbc nbo); simpl in H; [|discriminate].
  destruct (py_truediv a4 nbo) eqn:Hdiv2; simpl in H; [|discriminate].
  destruct (py_mul a5 (PInt 100)); simpl in H; [|discriminate].
  destruct (format_num a6); simpl in H; [|discriminate].
  destruct (getitem s "bd") as [bd|] eqn:Hbd; simpl in H; [|discriminate].
  destruct (getitem s "bf") as [bf|] eqn:Hbf; simpl in H; [|discriminate].
  destruct (format_f bf) as [nbf|] eqn:Hnbf; simpl in H; [|discriminate].
  exists bc, bo, bf, nts, nbc, nbo, nbf.
  repeat split; eauto using getitem_ok, truediv_ok_nonzero, format_f_as_num.
Qed.

(** X8. Every iteration over a sample that carries [ts] prints either
    the sample's line or an [ERR] with its index, and it prints the
    line only for a complete sample: [ts], [bc], [bo] and [bf] are
    numbers (or booleans, which count as 1 and 0), [bd] is present,
    and neither the price fetched at [ts] nor [bo] is zero (each is a
    divisor). *)
Theorem line_needs_complete_sample (w : World) (i : nat)
    (s : gmap string jval) (st : state) :
  is_Some (s !! "ts") ->
  (exists l, stdout (body w i s st).2 = stdout st ++ [Line l] /\
             complete_sample w s) \/
  (exists e, stdout (body w i s st).2 = stdout st ++ [Err i e]).
Proof.
  intros Hts. destruct (body_prints w i s st Hts) as (ev & Hout & Hev).
  destruct ev as [l|j e| | | |]; simpl in Hev; try (destruct Hev; fail).
  - left. exists l. split; [exact Hout|].
    destruct Hev as (ts & n & ts' & po & pc & bd & H1 & Hpo & _ & _ & _ & Hbd & Hl).
    destruct (format_line_needs w s ts po pc _ l Hl)
      as (vbc & vbo & vbf & nts & nbc & nbo & nbf & Hn & Hz & Hbc & Hnbc
          & Hbo & Hnbo & Hzbo & Hbf & Hnbf).
    exists ts, po, vbc, vbo, vbf, nts, nbc, nbo, nbf.
    repeat split; eauto.
  - right. subst j. exists e. exact Hout.
Qed.

Lemma line_needs_complete_sample_witness :
  exists l,
    stdout (body oracle_up 0 sample_bools init).2 = [Line l] /\
    complete_sample oracle_up sample_bools.
Proof.
  destruct (line_needs_complete_sample oracle_up 0 sample_bools init)
    as [H|[e He]].
  - eexists. vm_compute. reflexivity.
  - exact H.
  - vm_compute in He. discriminate He.
Defined.

End PythCompareProofs.

(* ===================================================================== *)
(** * Properties of the redemption invoker *)
(* ===================================================================== *)

Module RedeemProofs.
Import Redeem.

#[local] Arguments missing_vars : simpl never.
#[local] Arguments String.concat : simpl never.

Ltac unfold_run :=
  unfold exit_code, output, trace, run, main in *.

Ltac unfold_M :=
  unfold setup, settle, try_except, invoke, print, sys_exit, raise, environ,
    mbind, mret, M_bind, M_ret in *; simpl in *.

Ltac next_step :=
  match goal with
  | |- context [import_sdk ?w] => destruct (import_sdk w) eqn:?
  | |- context [@lookup string string _ _ ?k ?env] => destruct (@lookup string string _ _ k env) eqn:?
  | |- context [clob_client ?w ?a ?b] => destruct (clob_client w a b) eqn:?
  | |- context [create_or_derive_api_creds ?w] => destruct (create_or_derive_api_creds w) eqn:?
  | |- context [set_api_creds ?w] => destruct (set_api_creds w) eqn:?
  | |- context [builder_api_key_creds ?w ?a ?b ?c] => destruct (builder_api_key_creds w a b c) eqn:?
  | |- context [builder_config ?w] => destruct (builder_config w) eqn:?
  | |- context [relay_client ?w ?a] => destruct (relay_client w a) eqn:?
  | |- context [poly_web3_service ?w] => destruct (poly_web3_service w) eqn:?
  | |- context [is_condition_resolved ?w ?c] => destruct (is_condition_resolved w c) as [[|]|] eqn:?
  | |- context [get_redeemable_index_and_balance ?w ?c] =>
      destruct (get_redeemable_index_and_balance w c) eqn:?
  | |- context [bool_decide (?l = [])] => destruct (bool_decide (l = [])) eqn:?
  | |- context [forallb ?f ?l] => destruct (forallb f l) eqn:?
  | |- context [redeem ?w ?c] => destruct (redeem w c) eqn:?
  end; simpl.

(** ** One object per run *)

Lemma argv_1 (argv : list string) :
  (length argv <? 2)%nat = false -> exists cid, argv !! 1%nat = Some cid.
Proof.
  intros H. apply Nat.ltb_ge in H.
  destruct argv as [|a [|cid rest]]; simpl in H; try lia. eauto.
Qed.

(** C9. Whatever the arguments, the environment and the answers of the
    SDK, the run writes exactly one JSON object to standard output: on
    the usage error, on the missing configuration, on the resolution
    error, on NOT_RESOLVED, NO_BALANCE and SUCCESS, and on the
    unexpected error. *)
Theorem exactly_one_json (argv : list string) (env : gmap string string) (w : World) :
  length (output (run argv env w)) = 1%nat.
Proof.
  unfold_run.
  destruct (length argv <? 2)%nat eqn:Hlen; [reflexivity|].
  destruct (argv_1 argv Hlen) as [cid ->]. simpl.
  unfold_M.
  destruct (bool_decide (missing_vars env = [])) eqn:Hm; simpl; [|reflexivity].
  repeat next_step; reflexivity.
Qed.

(** ** Configuration *)

Lemma missing_vars_nil (env : gmap string string) :
  missing_vars env = [] ->
  forall v, v ∈ required_vars -> environ_get_truthy env v = true.
Proof.
  intros Hnil v Hv. destruct (environ_get_truthy env v) eqn:E; [reflexivity|].
  assert (v ∈ missing_vars env) as Hin
    by (unfold missing_vars; apply list_elem_of_filter; split; assumption).
  rewrite Hnil in Hin. inversion Hin.
Qed.

Lemma app_assoc (a b c : string) : (a +:+ b) +:+ c = a +:+ (b +:+ c).
Proof.
  induction a as [|ch a IH]; [reflexivity|].
  change (String ch ((a +:+ b) +:+ c) = String ch (a +:+ b +:+ c)). now rewrite IH.
Qed.

Lemma app_empty_r (a : string) : a +:+ "" = a.
Proof.
  induction a as [|ch a IH]; [reflexivity|].
  change (String ch (a +:+ "") = String ch a). now rewrite IH.
Qed.

Lemma occurs_in_prefixed (v pre msg : string) :
  occurs_in v msg -> occurs_in v (pre +:+ msg).
Proof.
  intros (a & b & ->). exists (pre +:+ a), b. now rewrite app_assoc.
Qed.

Lemma occurs_in_concat (sep v : string) (l : list string) :
  v ∈ l -> occurs_in v (String.concat sep l).
Proof.
  induction l as [|y l IH]; intros Hin; [inversion Hin|].
  destruct l as [|z l].
  - apply list_elem_of_singleton in Hin as ->. exists "", "".
    change (String.concat sep [y]) with y. now rewrite app_empty_r.
  - change (String.concat sep (y :: z :: l))
      with (y +:+ sep +:+ String.concat sep (z :: l)).
    apply elem_of_cons in Hin as [->|Hin].
    + exists "", (sep +:+ String.concat sep (z :: l)). reflexivity.
    + apply occurs_in_prefixed, occurs_in_prefixed, IH, Hin.
Qed.

(** C4, as amended. No import and no SDK call is made unless all eight
    required names are set and non-empty. When a condition identifier
    is supplied and one or more of them are unset or empty, the run
    prints a single ERROR object whose message holds every missing
    name, exits with code 1 and makes no call at all. *)
Theorem config_checked_first (argv : list string) (env : gmap string string)
    (w : World) :
  (trace (run argv env w) <> [] ->
   forall v, v ∈ required_vars -> environ_get_truthy env v = true) /\
  (forall cid, argv !! 1%nat = Some cid -> missing_vars env <> [] ->
   exists msg,
     output (run argv env w) = [[("status", "ERROR"); ("message", msg)]] /\
     exit_code (run argv env w) = 1 /\
     trace (run argv env w) = [] /\
     forall v, v ∈ required_vars -> environ_get_truthy env v = false ->
               occurs_in v msg).
Proof.
  split.
  - unfold_run.
    destruct (length argv <? 2)%nat eqn:Hlen; [intros H; now destruct H|].
    destruct (argv_1 argv Hlen) as [cid ->]. simpl. unfold_M.
    destruct (bool_decide (missing_vars env = [])) eqn:Hm; simpl;
      [|intros H; now destruct H].
    intros _. apply missing_vars_nil. now apply bool_decide_eq_true in Hm.
  - intros cid Hcid Hmiss.
    exists ("Missing env vars: " +:+ String.concat ", " (missing_vars env)).
    assert ((length argv <? 2)%nat = false) as Hlen.
    { apply Nat.ltb_ge. apply lookup_lt_Some in Hcid. lia. }
    unfold_run. rewrite Hlen, Hcid. simpl. unfold_M.
    rewrite (bool_decide_eq_false_2 _ Hmiss). simpl.
    repeat split.
    intros v Hv Hf. apply occurs_in_prefixed, occurs_in_concat.
    unfold missing_vars. apply list_elem_of_filter. split; assumption.
Qed.

Lemma config_checked_first_witness :
  exists msg,
    output (run ["redeem.py"; "0xabc"] (delete "BUILDER_SECRET" env_full) sdk_ok) =
      [[("status", "ERROR"); ("message", msg)]] /\
    occurs_in "BUILDER_SECRET" msg.
Proof.
  destruct (proj2 (config_checked_first ["redeem.py"; "0xabc"]
                     (delete "BUILDER_SECRET" env_full) sdk_ok) "0xabc")
    as (msg & Hout & _ & _ & Hocc); [reflexivity | vm_compute; discriminate |].
  exists msg. split; [exact Hout|].
  apply Hocc; [|vm_compute; reflexivity].
  unfold required_vars. repeat (try apply list_elem_of_here; apply list_elem_of_further).
Defined.

(** C4 fails as stated: without a condition identifier the usage check
    of line 33 answers first; all eight names are missing and the
    message names none of them. *)
Lemma usage_error_comes_first :
  missing_vars ∅ = required_vars /\
  output (run ["redeem.py"] ∅ sdk_ok) = [usage_error] /\
  ~ reports_missing ["redeem.py"] ∅ sdk_ok.
Proof.
  split; [vm_compute; reflexivity|]. split; [vm_compute; reflexivity|].
  intros (H & _). vm_compute in H. discriminate.
Qed.

(** ** Errors *)

Ltac in_trace H :=
  repeat (apply elem_of_cons in H as [H|H];
          [first [discriminate H | injection H as -> | subst | idtac] |]);
  try (apply elem_of_nil in H; destruct H).

Ltac settle_raise H :=
  unfold raised_by, raised in H; simpl in H;
  repeat match goal with
         | E : ?a = _, H' : context [match ?a with _ => _ end] |- _ => rewrite E in H'
         end;
  try discriminate H; try (injection H as ->).

(** C5, as amended. An exception raised by the resolution query gives
    the ERROR object of line 93 and exit code 0; an exception raised
    by any other call inside the [try] block, the balance query apart,
    gives the ERROR object with [traceback] and exit code 1. After an
    exception of the balance query the redeem call is still made. *)
Theorem raise_reported_unless_balance (argv : list string)
    (env : gmap string string) (w : World) (c : call) (e : error) :
  c ∈ trace (run argv env w) ->
  raised_by w c = Some e ->
  match c with
  | Is_condition_resolved _ =>
      output (run argv env w) = [resolution_error e] /\
      exit_code (run argv env w) = 0
  | Get_redeemable_index_and_balance cid =>
      Redeem_call cid ∈ trace (run argv env w)
  | _ =>
      output (run argv env w) = [unexpected_error w e] /\
      exit_code (run argv env w) = 1
  end.
Proof.
  intros Hin Hr. revert Hin. unfold_run.
  destruct (length argv <? 2)%nat eqn:Hlen; [simpl; intros Hin; inversion Hin|].
  destruct (argv_1 argv Hlen) as [cid ->]. simpl. unfold_M.
  destruct (bool_decide (missing_vars env = [])) eqn:Hm; simpl;
    [|intros Hin; inversion Hin].
  repeat next_step; intros Hin; in_trace Hin; settle_raise Hr;
    try (split; reflexivity).
  all: repeat constructor.
Qed.

(** C5 fails as stated: the balance query is inside the [try] block,
    and when it raises the run goes on to SUCCESS with exit code 0. *)
Lemma balance_raise_is_swallowed :
  output (run ["redeem.py"; "0xabc"] env_full sdk_balance_down) =
    [success (<["transactionID" := VStr "0193"]> (<["state" := VStr "STATE_NEW"]> ∅))] /\
  exit_code (run ["redeem.py"; "0xabc"] env_full sdk_balance_down) = 0 /\
  ~ every_raise_reported ["redeem.py"; "0xabc"] env_full sdk_balance_down.
Proof.
  split; [vm_compute; reflexivity|]. split; [vm_compute; reflexivity|].
  intros H.
  destruct (H (Get_redeemable_index_and_balance "0xabc") (SdkError "rpc unavailable"))
    as [_ Hcode]; [vm_compute; repeat constructor | reflexivity |].
  vm_compute in Hcode. discriminate.
Qed.

Lemma raise_reported_unless_balance_witness :
  output (run ["redeem.py"; "0xabc"] env_full sdk_redeem_fails) =
    [unexpected_error sdk_redeem_fails (SdkError "relayer: 429")] /\
  exit_code (run ["redeem.py"; "0xabc"] env_full sdk_redeem_fails) = 1.
Proof.
  apply (raise_reported_unless_balance ["redeem.py"; "0xabc"] env_full
           sdk_redeem_fails (Redeem_call "0xabc") (SdkError "relayer: 429")).
  - vm_compute. repeat constructor.
  - reflexivity.
Defined.

(** ** The balance check *)

Lemma all_zero_forallb (l : list (Z * Z)) :
  Forall (fun ib => ib.2 = 0) l -> forallb (fun ib => ib.2 =? 0) l = true.
Proof.
  induction 1 as [|ib l H _ IH]; [reflexivity|].
  simpl. rewrite H, IH. reflexivity.
Qed.

(** C6. Once the resolution query has answered true: when the balance
    query returns and every balance is zero, the run prints NO_BALANCE,
    exits with code 0 and never calls redeem; when the balance query
    raises, redeem is called all the same and the run ends as redeem
    decides, SUCCESS or the unexpected error of redeem itself. *)
Theorem balance_gate (argv : list string) (env : gmap string string)
    (w : World) (cid : string) :
  Is_condition_resolved cid ∈ trace (run argv env w) ->
  is_condition_resolved w cid = Returns true ->
  (forall l,
     get_redeemable_index_and_balance w cid = Returns l ->
     Forall (fun ib => ib.2 = 0) l ->
     output (run argv env w) = [no_balance] /\
     exit_code (run argv env w) = 0 /\
     Redeem_call cid ∉ trace (run argv env w)) /\
  (forall e,
     get_redeemable_index_and_balance w cid = Raises e ->
     Redeem_call cid ∈ trace (run argv env w) /\
     match redeem w cid with
     | Returns d =>
         output (run argv env w) = [success d] /\
         exit_code (run argv env w) = 0
     | Raises e' =>
         output (run argv env w) = [unexpected_error w e'] /\
         exit_code (run argv env w) = 1
     end).
Proof.
  intros Hin Hres. revert Hin. unfold_run.
  destruct (length argv <? 2)%nat eqn:Hlen; [simpl; intros Hin; inversion Hin|].
  destruct (argv_1 argv Hlen) as [cid' ->]. simpl. unfold_M.
  destruct (bool_decide (missing_vars env = [])) eqn:Hm; simpl;
    [|intros Hin; inversion Hin].
  repeat next_step; intros Hin; in_trace Hin; try congruence.
  all: split; [intros l Hl Hz; apply all_zero_forallb in Hz
              | intros e' He'];
       try congruence.
  all: try (repeat split; []; intros Hc; in_trace Hc).
  all: split; [repeat constructor|].
  all: repeat match goal with
         | H1 : ?a = _, H2 : ?a = _ |- _ => rewrite H1 in H2
         | H : Returns _ = Returns _ |- _ => injection H as <-
         | H : Raises _ = Raises _ |- _ => injection H as <-
         end.
  all: split; reflexivity.
Qed.

Lemma balance_gate_witness :
  (output (run ["redeem.py"; "0xabc"] env_full sdk_all_zero) = [no_balance] /\
   exit_code (run ["redeem.py"; "0xabc"] env_full sdk_all_zero) = 0 /\
   Redeem_call "0xabc" ∉ trace (run ["redeem.py"; "0xabc"] env_full sdk_all_zero)) /\
  Redeem_call "0xabc" ∈ trace (run ["redeem.py"; "0xabc"] env_full sdk_balance_down).
Proof.
  split.
  - apply (proj1 (balance_gate ["redeem.py"; "0xabc"] env_full sdk_all_zero "0xabc"
                    ltac:(vm_compute; repeat constructor) eq_refl)
             [(0, 0); (1, 0)] eq_refl).
    repeat constructor.
  - apply (proj2 (balance_gate ["redeem.py"; "0xabc"] env_full sdk_balance_down "0xabc"
                    ltac:(vm_compute; repeat constructor) eq_refl)
             (SdkError "rpc unavailable") eq_refl).
Defined.

(** ** Success *)

Lemma get_str_lookup (d : gmap string pyval) (k : string) :
  get_str d k = from_option str "" (d !! k).
Proof. unfold get_str. destruct (d !! k); reflexivity. Qed.

(** C10. Whenever redeem is called and returns a mapping, the run
    prints SUCCESS and ends with exit code 0; [tx_id], [tx_hash] and
    [state] are [str()] of the values under [transactionID],
    [transactionHash] and [state], and the empty string for a key the
    mapping lacks. *)
Theorem success_despite_absent_keys (argv : list string)
    (env : gmap string string) (w : World) (cid : string)
    (d : gmap string pyval) :
  Redeem_call cid ∈ trace (run argv env w) ->
  redeem w cid = Returns d ->
  output (run argv env w) =
    [[("status", "SUCCESS");
      ("tx_id", from_option str "" (d !! "transactionID"));
      ("tx_hash", from_option str "" (d !! "transactionHash"));
      ("state", from_option str "" (d !! "state"));
      ("message", "Redeem executed successfully")]] /\
  exit_code (run argv env w) = 0.
Proof.
  intros Hin Hd. rewrite <- !get_str_lookup. fold (success d).
  revert Hin. unfold_run.
  destruct (length argv <? 2)%nat eqn:Hlen; [simpl; intros Hin; inversion Hin|].
  destruct (argv_1 argv Hlen) as [cid' ->]. simpl. unfold_M.
  destruct (bool_decide (missing_vars env = [])) eqn:Hm; simpl;
    [|intros Hin; inversion Hin].
  repeat next_step; intros Hin; in_trace Hin; try congruence.
  all: rewrite Hd in *;
       match goal with H : Returns _ = Returns _ |- _ => injection H as <- end;
       split; reflexivity.
Qed.

Lemma success_despite_absent_keys_witness :
  output (run ["redeem.py"; "0xabc"] env_full sdk_ok) =
    [[("status", "SUCCESS"); ("tx_id", "0193"); ("tx_hash", "");
      ("state", "STATE_NEW"); ("message", "Redeem executed successfully")]] /\
  exit_code (run ["redeem.py"; "0xabc"] env_full sdk_ok) = 0.
Proof.
  exact (success_despite_absent_keys ["redeem.py"; "0xabc"] env_full sdk_ok "0xabc"
           (<["transactionID" := VStr "0193"]> (<["state" := VStr "STATE_NEW"]> ∅))
           ltac:(vm_compute; repeat constructor) eq_refl).
Defined.

(** ** The flag *)

(** C8 does not hold of the code: [neg_risk] is computed on line 39 and
    never read. Two runs that agree on the program name and on the
    condition identifier are equal, whatever else is on the command
    line. *)
Theorem neg_risk_is_ignored (prog cid : string) (rest rest' : list string)
    (env : gmap string string) (w : World) :
  run (prog :: cid :: rest) env w = run (prog :: cid :: rest') env w.
Proof. reflexivity. Qed.

Example neg_risk_same_run :
  run ["redeem.py"; "0xabc"; "--neg-risk"] env_full sdk_ok =
  run ["redeem.py"; "0xabc"] env_full sdk_ok.
Proof. vm_compute. reflexivity. Qed.


(** ** The outcome table *)

Ltac enter argv Hlen cid Hm :=
  unfold_run;
  destruct (length argv <? 2)%nat eqn:Hlen;
  [| destruct (argv_1 argv Hlen) as [cid ->]; simpl; unfold_M;
     destruct (bool_decide (missing_vars _ = [])) eqn:Hm; simpl ].

(** X9. Every run prints one object whose [status] is one of the four
    of the docstring; the exit code is 0 or 1; exit code 1 always comes
    with status ERROR, and a [traceback] field only with exit code 1. *)
Theorem outcome_table (argv : list string) (env : gmap string string) (w : World) :
  exists j st,
    output (run argv env w) = [j] /\
    field "status" j = Some st /\
    st ∈ ["SUCCESS"; "ERROR"; "NOT_RESOLVED"; "NO_BALANCE"] /\
    is_Some (field "message" j) /\
    (exit_code (run argv env w) = 0 \/ exit_code (run argv env w) = 1) /\
    (exit_code (run argv env w) = 1 -> st = "ERROR") /\
    (is_Some (field "traceback" j) -> exit_code (run argv env w) = 1).
Proof.
  enter argv Hlen cid Hm.
  2: repeat next_step.
  all: eexists _, _; split; [reflexivity|]; split; [reflexivity|].
  all: split; [repeat constructor|]; split; [eexists; reflexivity|].
  all: split; [first [left; reflexivity | right; reflexivity]|].
  all: split; [first [reflexivity | discriminate]
              | first [reflexivity | intros [? H]; discriminate H]].
Qed.

(** ** The order of the calls *)

Lemma plan_NoDup (env : gmap string string) (cid : string) : NoDup (plan env cid).
Proof.
  unfold plan.
  repeat (apply NoDup_cons; split;
          [intros H; repeat (apply elem_of_cons in H as [H|H]; [discriminate H|]);
           inversion H|]).
  apply NoDup_nil_2.
Qed.

Ltac known_env :=
  repeat match goal with
         | H : ?env !! ?k = Some _ |- context [?env !! ?k] => rewrite H
         end; simpl.

(** X10. The calls of a run are an initial part of one fixed sequence:
    the imports, the CLOB client (with the private key and the proxy
    address of the environment, chain 137, signature type 1), the
    credentials, the builder credentials, the relay client, the
    service, then the resolution query, the balance query and redeem,
    all three on [sys.argv[1]]. No call is made twice. *)
Theorem calls_follow_the_plan (argv : list string) (env : gmap string string)
    (w : World) :
  trace (run argv env w) `prefix_of` plan env (default "" (argv !! 1%nat)) /\
  NoDup (trace (run argv env w)).
Proof.
  assert (H : trace (run argv env w) `prefix_of` plan env (default "" (argv !! 1%nat))).
  { enter argv Hlen cid Hm; [apply prefix_nil | | apply prefix_nil].
    unfold plan. repeat next_step; known_env; eexists; reflexivity. }
  split; [exact H|].
  destruct H as [k Hk]. pose proof (plan_NoDup env (default "" (argv !! 1%nat))) as Hnd.
  rewrite Hk in Hnd. apply NoDup_app in Hnd. apply Hnd.
Qed.

(** ** The gates before redeem *)

(** X11. The balance is queried, and redeem called, only for the
    condition of [sys.argv[1]] and only after the resolution query has
    answered true for it. *)
Theorem redeem_only_when_resolved (argv : list string)
    (env : gmap string string) (w : World) (c : string) :
  Get_redeemable_index_and_balance c ∈ trace (run argv env w) \/
  Redeem_call c ∈ trace (run argv env w) ->
  argv !! 1%nat = Some c /\
  is_condition_resolved w c = Returns true /\
  Is_condition_resolved c ∈ trace (run argv env w).
Proof.
  enter argv Hlen cid Hm; [intros [H|H]; inversion H | | intros [H|H]; inversion H].
  repeat next_step; intros [Hin|Hin]; in_trace Hin; try congruence.
  all: split; [reflexivity|]; split; [reflexivity | repeat constructor].
Qed.

Lemma redeem_only_when_resolved_witness :
  ["redeem.py"; "0xabc"] !! 1%nat = Some "0xabc" /\
  is_condition_resolved sdk_ok "0xabc" = Returns true /\
  Is_condition_resolved "0xabc" ∈ trace (run ["redeem.py"; "0xabc"] env_full sdk_ok).
Proof.
  apply (redeem_only_when_resolved ["redeem.py"; "0xabc"] env_full sdk_ok "0xabc").
  right. vm_compute. repeat constructor.
Defined.

(** X12. When the resolution query answers false the run prints
    NOT_RESOLVED, exits with code 0, and the resolution query is its
    last call: neither the balance nor redeem is touched. *)
Theorem unresolved_stops_the_run (argv : list string)
    (env : gmap string string) (w : World) (c : string) :
  Is_condition_resolved c ∈ trace (run argv env w) ->
  is_condition_resolved w c = Returns false ->
  output (run argv env w) = [not_resolved] /\
  exit_code (run argv env w) = 0 /\
  last (trace (run argv env w)) = Some (Is_condition_resolved c).
Proof.
  intros Hin Hres. revert Hin.
  enter argv Hlen cid Hm; [intros H; inversion H | | intros H; inversion H].
  repeat next_step; intros Hin; in_trace Hin; try congruence.
  repeat split.
Qed.

Lemma unresolved_stops_the_run_witness :
  output (run ["redeem.py"; "0xabc"] env_full sdk_unresolved) = [not_resolved] /\
  exit_code (run ["redeem.py"; "0xabc"] env_full sdk_unresolved) = 0 /\
  last (trace (run ["redeem.py"; "0xabc"] env_full sdk_unresolved)) =
    Some (Is_condition_resolved "0xabc").
Proof.
  apply (unresolved_stops_the_run ["redeem.py"; "0xabc"] env_full sdk_unresolved "0xabc").
  - vm_compute. repeat constructor.
  - reflexivity.
Defined.

Lemma some_nonzero_forallb (l : list (Z * Z)) :
  Exists (fun ib => ib.2 <> 0) l ->
  bool_decide (l = []) || forallb (fun ib => ib.2 =? 0) l = false.
Proof.
  induction 1 as [ib l H|ib l _ IH]; simpl.
  - apply Z.eqb_neq in H. rewrite H. reflexivity.
  - destruct l as [|ib' l']; [inversion IH|].
    simpl in IH. simpl. rewrite IH. apply andb_false_r.
Qed.

(** X13. When the condition is resolved and the balance query returns
    at least one balance that is not zero, redeem is called, and the
    run ends as redeem decides: SUCCESS with exit code 0 when it
    returns, the ERROR with [traceback] and exit code 1 when it
    raises. *)
Theorem positive_balance_is_redeemed (argv : list string)
    (env : gmap string string) (w : World) (c : string) (l : list (Z * Z)) :
  Is_condition_resolved c ∈ trace (run argv env w) ->
  is_condition_resolved w c = Returns true ->
  get_redeemable_index_and_balance w c = Returns l ->
  Exists (fun ib => ib.2 <> 0) l ->
  Redeem_call c ∈ trace (run argv env w) /\
  match redeem w c with
  | Returns d =>
      output (run argv env w) = [success d] /\
      exit_code (run argv env w) = 0
  | Raises e =>
      output (run argv env w) = [unexpected_error w e] /\
      exit_code (run argv env w) = 1
  end.
Proof.
  intros Hin Hres Hbal Hnz. apply some_nonzero_forallb in Hnz. revert Hin.
  enter argv Hlen cid Hm; [intros H; inversion H | | intros H; inversion H].
  repeat next_step; intros Hin; in_trace Hin; try congruence.
  all: repeat match goal with
         | H1 : ?a = _, H2 : ?a = _ |- _ => rewrite H1 in H2
         | H : Returns _ = Returns _ |- _ => injection H as <-
         | H : Raises _ = Raises _ |- _ => injection H as <-
         end.
  all: try (match goal with
            | H1 : bool_decide (?l = []) = _, H2 : forallb _ ?l = _ |- _ =>
                rewrite H1, H2 in Hnz; discriminate Hnz
            | H1 : bool_decide (?l = []) = true |- _ =>
                rewrite H1 in Hnz; discriminate Hnz
            end).
  all: split; [repeat constructor | split; reflexivity].
Qed.

Lemma positive_balance_is_redeemed_witness :
  Redeem_call "0xabc" ∈ trace (run ["redeem.py"; "0xabc"] env_full sdk_redeem_fails) /\
  output (run ["redeem.py"; "0xabc"] env_full sdk_redeem_fails) =
    [unexpected_error sdk_redeem_fails (SdkError "relayer: 429")] /\
  exit_code (run ["redeem.py"; "0xabc"] env_full sdk_redeem_fails) = 1.
Proof.
  apply (positive_balance_is_redeemed ["redeem.py"; "0xabc"] env_full
           sdk_redeem_fails "0xabc" [(0, 7)]).
  - vm_compute. repeat constructor.
  - reflexivity.
  - reflexivity.
  - constructor. simpl. lia.
Defined.

(** ** What the environment is used for *)

Lemma truthy_insert (env : gmap string string) (k v k' : string) :
  v <> "" -> environ_get_truthy env k = true ->
  environ_get_truthy (<[k:=v]> env) k' = environ_get_truthy env k'.
Proof.
  intros Hv Hk. unfold environ_get_truthy in *.
  destruct (decide (k = k')) as [<-|Hne].
  - rewrite lookup_insert_eq, Hk. rewrite bool_decide_eq_false_2 by exact Hv. reflexivity.
  - rewrite lookup_insert_ne by exact Hne. reflexivity.
Qed.

Lemma missing_vars_insert (env : gmap string string) (k v : string) :
  v <> "" -> environ_get_truthy env k = true ->
  missing_vars (<[k:=v]> env) = missing_vars env.
Proof.
  intros Hv Hk. unfold missing_vars.
  apply list_filter_iff. intros k'. rewrite (truthy_insert env k v k' Hv Hk). reflexivity.
Qed.

(** X14. Three of the eight required names are checked and never read:
    once POLY_API_KEY, POLY_API_SECRET and POLY_PASSPHRASE are set,
    giving one of them another non-empty value changes nothing, neither
    the calls and their arguments nor the output nor the exit code. *)
Theorem unread_credentials (argv : list string) (env : gmap string string)
    (w : World) (k v : string) :
  k ∈ unread_vars ->
  v <> "" ->
  environ_get_truthy env k = true ->
  run argv (<[k:=v]> env) w = run argv env w.
Proof.
  intros Hk Hv Ht. unfold run, main.
  rewrite (missing_vars_insert env k v Hv Ht).
  destruct (length argv <? 2)%nat; [reflexivity|].
  destruct (argv !! 1%nat) as [cid|]; [|reflexivity]. simpl.
  assert (Hsetup : setup (<[k:=v]> env) w = setup env w).
  { unfold setup, environ. unfold unread_vars in Hk.
    repeat (apply elem_of_cons in Hk as [->|Hk]);
      [| | |inversion Hk]; rewrite !lookup_insert_ne by discriminate; reflexivity. }
  rewrite Hsetup. reflexivity.
Qed.

Lemma unread_credentials_witness :
  run ["redeem.py"; "0xabc"] (<["POLY_API_SECRET" := "other"]> env_full) sdk_ok =
  run ["redeem.py"; "0xabc"] env_full sdk_ok.
Proof.
  apply (unread_credentials ["redeem.py"; "0xabc"] env_full sdk_ok
           "POLY_API_SECRET" "other").
  - unfold unread_vars. apply list_elem_of_further, list_elem_of_here.
  - discriminate.
  - vm_compute. reflexivity.
Defined.

(** ** Where an ERROR comes from *)

Ltac env_is_set Hm :=
  match goal with
  | H : ?env !! ?k = None |- _ =>
      exfalso; apply bool_decide_eq_true in Hm;
      assert (environ_get_truthy env k = true) as Ht
        by (apply (missing_vars_nil env Hm); unfold required_vars;
            repeat (first [apply list_elem_of_here | apply list_elem_of_further]));
      unfold environ_get_truthy in Ht; rewrite H in Ht; discriminate Ht
  end.

(** X15. Past the two checks of the command line and the environment,
    an ERROR is printed only for an exception that a call raised, and
    the message is that exception's text: the subscripts of
    [os.environ] never fail. With exit code 1 the failing call is the
    last one made; with exit code 0 it is the resolution query. *)
Theorem error_comes_from_a_call (argv : list string)
    (env : gmap string string) (w : World) (j : json) :
  trace (run argv env w) <> [] ->
  output (run argv env w) = [j] ->
  field "status" j = Some "ERROR" ->
  exists c e,
    last (trace (run argv env w)) = Some c /\
    raised_by w c = Some e /\
    (j = unexpected_error w e /\ exit_code (run argv env w) = 1 \/
     j = resolution_error e /\ exit_code (run argv env w) = 0 /\
     exists cid, c = Is_condition_resolved cid).
Proof.
  enter argv Hlen cid Hm; [intros H; now destruct H | | intros H; now destruct H].
  repeat next_step; try env_is_set Hm; intros _ Hj Hst;
    injection Hj as <-; try discriminate Hst.
  all: eexists _, _; split; [reflexivity|]; split;
       [unfold raised_by, raised;
        match goal with H : ?a = Raises _ |- context [?a] => rewrite H end;
        reflexivity|].
  all: first [left; split; reflexivity
             | right; split; [reflexivity|]; split; [reflexivity|]; eexists; reflexivity].
Qed.

Lemma error_comes_from_a_call_witness :
  exists c e,
    last (trace (run ["redeem.py"; "0xabc"] env_full sdk_redeem_fails)) = Some c /\
    raised_by sdk_redeem_fails c = Some e /\
    e = SdkError "relayer: 429".
Proof.
  destruct (error_comes_from_a_call ["redeem.py"; "0xabc"] env_full sdk_redeem_fails
              (unexpected_error sdk_redeem_fails (SdkError "relayer: 429")))
    as (c & e & Hlast & Hr & H); [vm_compute; discriminate | reflexivity | reflexivity |].
  exists c, e. split; [exact Hlast|]. split; [exact Hr|].
  vm_compute in Hlast. injection Hlast as <-. vm_compute in Hr. congruence.
Defined.

End RedeemProofs.
